(** * Gaussian sum and average queries (privacy/optimizers/gaussian_query.py)

    A shallow embedding of [GaussianSumQuery] and [GaussianAverageQuery]
    together with the TensorFlow primitives they call ([tf.*] and
    [tf.contrib.framework.nest]), and the properties of the specification
    that concern them.

    Layout: the numeric engine (an interface, instantiated by exact
    arithmetic extended with the IEEE special values, and by binary32,
    which computes), tensors and nested structures, the effect monad
    (ledger calls, random draws, exceptions), the two queries, then the
    lemmas and the theorems.  General statements are proved for every
    engine where they do not depend on arithmetic and in exact arithmetic
    where they do; the scenarios are also run in binary32. *)

From Stdlib Require Import Reals Lra List ZArith Bool Arith Lia.
From Stdlib Require Import Floats.SpecFloat.
From Stdlib Require Import Sorting.Permutation.
Import ListNotations.

Set Implicit Arguments.

(** ** The numeric engine

    The queries never look inside a number: they add, multiply, divide,
    take a square root and a minimum, and convert Python numbers to the
    engine's float type.  The embedding keeps that interface abstract. *)

Class Numeric (T : Type) : Type := {
  of_Z : Z -> T;
  nadd : T -> T -> T;
  nmul : T -> T -> T;
  ndiv : T -> T -> T;
  nsqrt : T -> T;
  nmin : T -> T -> T
}.

(** Exact arithmetic with the special values of IEEE 754: what a float
    computation yields when rounding and overflow are left out.  Division
    by zero is not an exception in TensorFlow; it yields an infinity, or
    NaN for 0/0.  There is a single zero, taken as positive. *)

Inductive xreal : Type :=
| Fin (r : R)
| PInf
| NInf
| NaN.

Definition xadd (x y : xreal) : xreal :=
  match x, y with
  | NaN, _ | _, NaN => NaN
  | PInf, NInf | NInf, PInf => NaN
  | PInf, _ | _, PInf => PInf
  | NInf, _ | _, NInf => NInf
  | Fin a, Fin b => Fin (a + b)
  end.

(** An infinity times a finite number: NaN at zero, else the sign rule. *)
Definition inf_times (positive : bool) (r : R) : xreal :=
  if Req_dec_T r 0 then NaN
  else if Rlt_dec 0 r then (if positive then PInf else NInf)
  else (if positive then NInf else PInf).

Definition xmul (x y : xreal) : xreal :=
  match x, y with
  | NaN, _ | _, NaN => NaN
  | Fin a, Fin b => Fin (a * b)
  | PInf, Fin r | Fin r, PInf => inf_times true r
  | NInf, Fin r | Fin r, NInf => inf_times false r
  | PInf, PInf | NInf, NInf => PInf
  | PInf, NInf | NInf, PInf => NInf
  end.

Definition xdiv (x y : xreal) : xreal :=
  match x, y with
  | NaN, _ | _, NaN => NaN
  | Fin a, Fin b =>
      if Req_dec_T b 0 then
        (if Req_dec_T a 0 then NaN
         else if Rlt_dec 0 a then PInf else NInf)
      else Fin (a / b)
  | Fin _, (PInf | NInf) => Fin 0
  | PInf, Fin b => if Rlt_dec b 0 then NInf else PInf
  | NInf, Fin b => if Rlt_dec b 0 then PInf else NInf
  | (PInf | NInf), (PInf | NInf) => NaN
  end.

Definition xsqrt (x : xreal) : xreal :=
  match x with
  | Fin a => if Rlt_dec a 0 then NaN else Fin (sqrt a)
  | PInf => PInf
  | NInf | NaN => NaN
  end.

(** [x < y]; every comparison with NaN is false. *)
Definition xlt (x y : xreal) : bool :=
  match x, y with
  | NaN, _ | _, NaN => false
  | Fin a, Fin b => if Rlt_dec a b then true else false
  | NInf, (Fin _ | PInf) => true
  | Fin _, PInf => true
  | _, _ => false
  end.

(** [tf.minimum]: "returns the min of x and y (i.e. x < y ? x : y)". *)
Definition xmin (x y : xreal) : xreal := if xlt x y then x else y.

#[export] Instance xreal_Numeric : Numeric xreal := {
  of_Z z := Fin (IZR z);
  nadd := xadd;
  nmul := xmul;
  ndiv := xdiv;
  nsqrt := xsqrt;
  nmin := xmin
}.

(** IEEE 754 binary32, the type that [tf.to_float] converts to, with the
    Standard Library's executable operations: rounding to nearest even,
    infinities, NaN and signed zeros. *)

Definition binary32 : Type := spec_float.

Module b32.

Definition prec : Z := 24.
Definition emax : Z := 128.

Definition of_Z (z : Z) : binary32 :=
  match z with
  | Z0 => S754_zero false
  | Zpos _ => binary_normalize prec emax z 0 false
  | Zneg _ => binary_normalize prec emax z 0 true
  end.

Definition minimum (x y : binary32) : binary32 := if SFltb x y then x else y.

End b32.

#[export] Instance binary32_Numeric : Numeric binary32 := {
  of_Z := b32.of_Z;
  nadd := SFadd b32.prec b32.emax;
  nmul := SFmul b32.prec b32.emax;
  ndiv := SFdiv b32.prec b32.emax;
  nsqrt := SFsqrt b32.prec b32.emax;
  nmin := b32.minimum
}.

(** ** Tensors and nested structures *)

(** A dense tensor: its static shape and its elements in row-major order.
    A scalar has shape [[]]. *)
Record tensor (T : Type) : Type := mkTensor {
  shape : list nat;
  data : list T
}.

Definition numel (s : list nat) : nat := fold_right Nat.mul 1%nat s.

Definition wf_tensor {T} (t : tensor T) : Prop :=
  length (data t) = numel (shape t).

Definition tmap {A B} (f : A -> B) (t : tensor A) : tensor B :=
  {| shape := shape t; data := map f (data t) |}.

Fixpoint zip_with {A B C} (f : A -> B -> C) (xs : list A) (ys : list B)
  : list C :=
  match xs, ys with
  | x :: xs', y :: ys' => f x y :: zip_with f xs' ys'
  | _, _ => []
  end.

(** What [nest] traverses: a tensor, or a Python sequence of structures.
    Lists and tuples are not told apart, dictionaries are left out. *)
#[local] Unset Elimination Schemes.
Inductive structure (A : Type) : Type :=
| Leaf (a : A)
| Seq (items : list (structure A)).
#[local] Set Elimination Schemes.

Arguments Leaf {A} a.
Arguments Seq {A} items.

(** ** Effects

    A call may raise, append to a ledger, or consume draws of the random
    generator. *)

Inductive exn : Type :=
| ValueError
| InvalidArgumentError.

Inductive outcome (A : Type) : Type :=
| Ok (a : A)
| Raise (e : exn).

Arguments Ok {A} a.
Arguments Raise {A} e.

(** A ledger is an external object; the queries hold a reference to it. *)
Definition ledger_ref : Type := nat.

Inductive event (T : Type) : Type :=
| RecordSumQuery (ledger : ledger_ref) (l2_norm_clip stddev : T).

(** The state outside the queries: the calls the ledgers have received,
    oldest first, and the random generator, given by the sequence of
    standard normal draws it produces and how many were consumed. *)
Record world (T : Type) : Type := mkWorld {
  ledger_calls : list (event T);
  standard_normal : nat -> T;
  draws_used : nat
}.

(** The world after one more call to a ledger. *)
Definition log_call {T} (e : event T) (w : world T) : world T :=
  {| ledger_calls := ledger_calls w ++ [e];
     standard_normal := standard_normal w;
     draws_used := draws_used w |}.

Definition M (T A : Type) : Type := world T -> outcome (A * world T).

Definition ret {T A} (a : A) : M T A := fun w => Ok (a, w).

Definition bind {T A B} (m : M T A) (k : A -> M T B) : M T B :=
  fun w => match m w with
           | Ok (a, w') => k a w'
           | Raise e => Raise e
           end.

Definition raise {T A} (e : exn) : M T A := fun _ => Raise e.

(** What a call returned or raised, the world set aside. *)
Definition returned {T A} (o : outcome (A * world T)) : outcome A :=
  match o with
  | Ok (a, _) => Ok a
  | Raise e => Raise e
  end.

Declare Scope py_scope.
Delimit Scope py_scope with py.
Notation "x <- m ;; k" := (bind m (fun x => k))
  (at level 61, m at next level, right associativity) : py_scope.
Notation "' pat <- m ;; k" := (bind m (fun x => match x with pat => k end))
  (at level 61, pat pattern, m at next level, right associativity) : py_scope.
Open Scope py_scope.

Fixpoint mapM {T A B} (f : A -> M T B) (xs : list A) : M T (list B) :=
  match xs with
  | [] => ret []
  | x :: xs' => y <- f x ;; ys <- mapM f xs' ;; ret (y :: ys)
  end.

(** The list comprehension over [zip(xs, ys)]. *)
Fixpoint mapM2 {T A B C} (f : A -> B -> M T C) (xs : list A) (ys : list B)
  : M T (list C) :=
  match xs, ys with
  | x :: xs', y :: ys' =>
      z <- f x y ;; zs <- mapM2 f xs' ys' ;; ret (z :: zs)
  | _, _ => ret []
  end.

(** ** tf.contrib.framework.nest *)

Module nest.

Fixpoint flatten {A} (s : structure A) : list A :=
  match s with
  | Leaf a => [a]
  | Seq items => flat_map flatten items
  end.

(** [assert_same_structure], as a test. *)
Fixpoint same_structure {A B} (s1 : structure A) (s2 : structure B) : bool :=
  match s1, s2 with
  | Leaf _, Leaf _ => true
  | Seq xs, Seq ys =>
      (fix go (xs : list (structure A)) (ys : list (structure B)) : bool :=
         match xs, ys with
         | [], [] => true
         | x :: xs', y :: ys' => same_structure x y && go xs' ys'
         | _, _ => false
         end) xs ys
  | _, _ => false
  end.

(** [_packed_nest_with_indices]: rebuilds [s] from the front of [flat] and
    returns what is left of [flat]. *)
Fixpoint packed_nest {A B} (s : structure A) (flat : list B)
  : option (structure B * list B) :=
  match s with
  | Leaf _ =>
      match flat with
      | b :: rest => Some (Leaf b, rest)
      | [] => None
      end
  | Seq items =>
      match
        (fix go (items : list (structure A)) (flat : list B)
           : option (list (structure B) * list B) :=
           match items with
           | [] => Some ([], flat)
           | i :: items' =>
               match packed_nest i flat with
               | Some (p, rest) =>
                   match go items' rest with
                   | Some (ps, rest') => Some (p :: ps, rest')
                   | None => None
                   end
               | None => None
               end
           end) items flat
      with
      | Some (ps, rest) => Some (Seq ps, rest)
      | None => None
      end
  end.

Definition pack_sequence_as {T A B} (s : structure A) (flat_sequence : list B)
  : M T (structure B) :=
  match s with
  | Leaf _ =>
      match flat_sequence with
      | [b] => ret (Leaf b)
      | _ => raise ValueError
      end
  | Seq _ =>
      if length (flatten s) =? length flat_sequence then
        match packed_nest s flat_sequence with
        | Some (packed, _) => ret packed
        | None => raise ValueError
        end
      else raise ValueError
  end.

(** [map_structure(func, structure)]: the function is applied to the
    leaves in the order of [flatten], then the results are packed. *)
Definition map_structure {T A B} (func : A -> M T B) (s : structure A)
  : M T (structure B) :=
  ys <- mapM func (flatten s) ;; pack_sequence_as s ys.

(** [map_structure(func, s1, s2)]: the structures are compared before
    [func] is applied to any leaf. *)
Definition map_structure2 {T A B C} (func : A -> B -> M T C)
  (s1 : structure A) (s2 : structure B) : M T (structure C) :=
  if same_structure s1 s2 then
    zs <- mapM2 func (flatten s1) (flatten s2) ;; pack_sequence_as s1 zs
  else raise ValueError.

End nest.

(** ** The TensorFlow operations the queries call

    Each follows the TensorFlow 1.x operation of the same name
    ([python/ops/clip_ops.py], [random_ops.py], [math_ops.py]); a scalar
    and a tensor are combined element by element. *)

(** A Python number given to a constructor: an integer, or a value that is
    already a float of the engine. *)
Inductive pynum (T : Type) : Type :=
| PyInt (z : Z)
| PyFloat (x : T).

Arguments PyInt {T} z.
Arguments PyFloat {T} x.

(** The numbers that [tf.to_float] accepts: a float, or an integer that
    fits in 64 bits.  On a Python integer beyond 64 bits TensorFlow raises
    [TypeError] when it converts the argument to a tensor. *)
Definition convertible {T} (x : pynum T) : Prop :=
  match x with
  | PyInt z => (- 2 ^ 63 <= z < 2 ^ 63)%Z
  | PyFloat _ => True
  end.

Module tf.
Section Ops.
Context {T : Type} `{Numeric T}.

(** [tf.to_float] on a number it accepts ([convertible]): the cast to the
    engine's float type.  What TensorFlow does with an integer beyond 64
    bits (it raises) is not described by this conversion. *)
Definition to_float (x : pynum T) : T :=
  match x with
  | PyInt z => of_Z z
  | PyFloat x => x
  end.

Definition zeros (s : list nat) : tensor T :=
  {| shape := s; data := repeat (of_Z 0) (numel s) |}.

Definition zeros_like (t : tensor T) : tensor T := zeros (shape t).

(** Elementwise sum of two tensors of one shape.  TensorFlow would
    broadcast shapes that differ but are compatible; the queries add
    tensors of equal shape only, and the embedding stops at that case. *)
Definition add (x y : tensor T) : M T (tensor T) :=
  if list_eq_dec Nat.eq_dec (shape x) (shape y) then
    ret {| shape := shape x; data := zip_with nadd (data x) (data y) |}
  else raise InvalidArgumentError.

(** [v * scale] and [tf.truediv(v, d)] with a scalar second operand. *)
Definition mul_scalar (v : tensor T) (scale : T) : tensor T :=
  tmap (fun x => nmul x scale) v.

Definition truediv (v : tensor T) (d : T) : tensor T :=
  tmap (fun x => ndiv x d) v.

Definition reduce_sum (xs : list T) : T := fold_left nadd xs (of_Z 0).

(** [l2_loss(t) = sum(t ** 2) / 2] *)
Definition l2_loss (t : tensor T) : T :=
  ndiv (reduce_sum (map (fun x => nmul x x) (data t))) (of_Z 2).

(** [global_norm]: the half squared norms of all tensors are summed, the
    sum is doubled and its square root taken. *)
Definition global_norm (t_list : list (tensor T)) : T :=
  let half_squared_norm := reduce_sum (map l2_loss t_list) in
  nsqrt (nmul half_squared_norm (of_Z 2)).

(** The local [scale] of [clip_by_global_norm]:
    [clip_norm * minimum(1.0 / use_norm, 1.0 / clip_norm)]. *)
Definition clip_scale (use_norm clip_norm : T) : T :=
  nmul clip_norm (nmin (ndiv (of_Z 1) use_norm) (ndiv (of_Z 1) clip_norm)).

(** [clip_by_global_norm]: every tensor is multiplied by [scale]; the
    global norm is returned with the clipped list. *)
Definition clip_by_global_norm (t_list : list (tensor T)) (clip_norm : T)
  : list (tensor T) * T :=
  let use_norm := global_norm t_list in
  let scale := clip_scale use_norm clip_norm in
  (map (fun v => mul_scalar v scale) t_list, use_norm).

(** [random_standard_normal]: the next [n] draws of the generator. *)
Definition random_standard_normal (n : nat) : M T (list T) :=
  fun w =>
    Ok (map (standard_normal w) (seq (draws_used w) n),
        {| ledger_calls := ledger_calls w;
           standard_normal := standard_normal w;
           draws_used := draws_used w + n |}).

(** [random_normal(shape, stddev=s)]: standard normal draws, one per
    element, each multiplied by [s] and added to the mean 0.0. *)
Definition random_normal (s : list nat) (stddev : T) : M T (tensor T) :=
  rnd <- random_standard_normal (numel s) ;;
  ret {| shape := s;
         data := map (fun z => nadd (nmul z stddev) (of_Z 0)) rnd |}.

(** [with tf.control_dependencies(deps): body].  The operations of [deps]
    have run when [body] is reached, since state is passed along. *)
Definition control_dependencies {A} (deps : list unit) (body : M T A)
  : M T A := body.

End Ops.
End tf.

(** ** The privacy ledger (external) *)

Module ledger.

(** [ledger.record_sum_query(l2_norm_clip, stddev)]: the ledger receives
    the call. *)
Definition record_sum_query {T} (l : ledger_ref) (l2_norm_clip stddev : T)
  : M T unit :=
  fun w => Ok (tt, log_call (RecordSumQuery l l2_norm_clip stddev) w).

End ledger.

(** ** GaussianSumQuery *)

Module GaussianSumQuery.
Section Query.
Context {T : Type} `{Numeric T}.

(** The global state is opaque to the queries: [None], or whatever value
    of some type [G] the caller passes. *)
Variable G : Type.

Record t : Type := mk {
  _l2_norm_clip : T;
  _stddev : T;
  _ledger : option ledger_ref
}.

Definition __init__ (l2_norm_clip stddev : pynum T)
  (ledger : option ledger_ref) : outcome t :=
  Ok {| _l2_norm_clip := tf.to_float l2_norm_clip;
        _stddev := tf.to_float stddev;
        _ledger := ledger |}.

Definition initial_global_state (self : t) : option G := None.

Definition derive_sample_params (self : t) (global_state : option G) : T :=
  _l2_norm_clip self.

Definition initial_sample_state (self : t) (global_state : option G)
  (tensors : structure (tensor T)) : M T (structure (tensor T)) :=
  dependencies <-
    match _ledger self with
    | Some l =>
        d <- ledger.record_sum_query l (_l2_norm_clip self) (_stddev self) ;;
        ret [d]
    | None => ret []
    end ;;
  tf.control_dependencies dependencies
    (nest.map_structure (fun v => ret (tf.zeros_like v)) tensors).

(** The local variable [clipped] of [accumulate_record_impl], with the
    global norm returned by [tf.clip_by_global_norm]. *)
Definition clipped (params : T) (record : structure (tensor T))
  : M T (structure (tensor T) * T) :=
  let l2_norm_clip := params in
  let record_as_list := nest.flatten record in
  let '(clipped_as_list, norm) :=
    tf.clip_by_global_norm record_as_list l2_norm_clip in
  c <- nest.pack_sequence_as record clipped_as_list ;;
  ret (c, norm).

Definition accumulate_record_impl (self : t) (params : T)
  (sample_state record : structure (tensor T))
  : M T (structure (tensor T) * T) :=
  '(c, norm) <- clipped params record ;;
  new_sample_state <- nest.map_structure2 tf.add sample_state c ;;
  ret (new_sample_state, norm).

Definition accumulate_record (self : t) (params : T)
  (sample_state record : structure (tensor T)) : M T (structure (tensor T)) :=
  '(new_sample_state, _) <- accumulate_record_impl self params sample_state
                              record ;;
  ret new_sample_state.

Definition add_noise (self : t) (v : tensor T) : M T (tensor T) :=
  noise <- tf.random_normal (shape v) (_stddev self) ;;
  tf.add v noise.

Definition get_noised_result (self : t) (sample_state : structure (tensor T))
  (global_state : option G) : M T (structure (tensor T) * option G) :=
  estimate <- nest.map_structure (add_noise self) sample_state ;;
  ret (estimate, global_state).

End Query.
End GaussianSumQuery.

(** ** GaussianAverageQuery *)

Module GaussianAverageQuery.
Section Query.
Context {T : Type} `{Numeric T}.
Variable G : Type.

Record t : Type := mk {
  _numerator : GaussianSumQuery.t (T := T);
  _denominator : T
}.

Definition __init__ (l2_norm_clip sum_stddev denominator : pynum T)
  (ledger : option ledger_ref) : outcome t :=
  match GaussianSumQuery.__init__ l2_norm_clip sum_stddev ledger with
  | Ok numerator =>
      Ok {| _numerator := numerator;
            _denominator := tf.to_float denominator |}
  | Raise e => Raise e
  end.

Definition initial_global_state (self : t) : option G :=
  GaussianSumQuery.initial_global_state G (_numerator self).

Definition derive_sample_params (self : t) (global_state : option G) : T :=
  GaussianSumQuery.derive_sample_params (_numerator self) global_state.

Definition initial_sample_state (self : t) (global_state : option G)
  (tensors : structure (tensor T)) : M T (structure (tensor T)) :=
  GaussianSumQuery.initial_sample_state (_numerator self) global_state tensors.

Definition accumulate_record (self : t) (params : T)
  (sample_state record : structure (tensor T)) : M T (structure (tensor T)) :=
  GaussianSumQuery.accumulate_record (_numerator self) params sample_state
    record.

Definition normalize (self : t) (v : tensor T) : tensor T :=
  tf.truediv v (_denominator self).

Definition get_noised_result (self : t) (sample_state : structure (tensor T))
  (global_state : option G) : M T (structure (tensor T) * option G) :=
  '(noised_sum, new_sum_global_state) <-
    GaussianSumQuery.get_noised_result (_numerator self) sample_state
      global_state ;;
  estimate <- nest.map_structure (fun v => ret (normalize self v)) noised_sum ;;
  ret (estimate, new_sum_global_state).

End Query.
End GaussianAverageQuery.

(** ** Specification-side notions *)

(** The pure image of a structure under a leaf function: what
    [nest.map_structure] returns for a function without effects. *)
Fixpoint smap {A B} (f : A -> B) (s : structure A) : structure B :=
  match s with
  | Leaf a => Leaf (f a)
  | Seq items => Seq (map (smap f) items)
  end.

(** Two structures agree in nesting and in the shape of every leaf. *)
Definition same_shapes {A B} (s1 : structure (tensor A))
  (s2 : structure (tensor B)) : Prop :=
  nest.same_structure s1 s2 = true /\
  map (@shape A) (nest.flatten s1) = map (@shape B) (nest.flatten s2).

(** Real-valued records, as the specification speaks of them, and their
    image in the engine. *)
Definition lift (r : structure (tensor R)) : structure (tensor xreal) :=
  smap (tmap Fin) r.

Fixpoint Rsum (xs : list R) : R :=
  match xs with
  | [] => 0%R
  | x :: xs' => (x + Rsum xs')%R
  end.

(** All elements of all leaves, in flattening order. *)
Definition elements (r : structure (tensor R)) : list R :=
  flat_map (@data R) (nest.flatten r).

(** The global L2 norm: one square root over the squares of all elements
    of all leaves. *)
Definition l2_norm (r : structure (tensor R)) : R :=
  sqrt (Rsum (map (fun x => x * x)%R (elements r))).

(** The record with every element multiplied by [k]. *)
Definition rescale (k : R) (r : structure (tensor R)) : structure (tensor R) :=
  smap (tmap (fun x => x * k)%R) r.

(** The elementwise sum of two tensors, without the test on shapes. *)
Definition tadd {T} `{Numeric T} (x y : tensor T) : tensor T :=
  {| shape := shape x; data := zip_with nadd (data x) (data y) |}.

(** Every draw of the generator is a finite number. *)
Definition finite_draws (w : world xreal) : Prop :=
  forall i, exists z, standard_normal w i = Fin z.

(** A world where nothing has happened; the draws are 0, -1, 2, -3, ... *)
Definition quiet_world : world xreal :=
  {| ledger_calls := [];
     standard_normal := fun i => Fin (if Nat.even i then INR i else - INR i);
     draws_used := 0 |}.

(** The same for binary32: nothing has happened, the draws are the
    floats 0, -1, 2, -3, ... *)
Definition quiet_world32 : world binary32 :=
  {| ledger_calls := [];
     standard_normal :=
       fun i => b32.of_Z (if Nat.even i then Z.of_nat i else - Z.of_nat i);
     draws_used := 0 |}.

(** A scalar tensor and a vector. *)
Definition scalar {T} (x : T) : tensor T := {| shape := []; data := [x] |}.
Definition vector {T} (xs : list T) : tensor T :=
  {| shape := [length xs]; data := xs |}.

(** The caller's loop over the records of a round. *)
Fixpoint foldM {T A B} (f : A -> B -> M T A) (a : A) (bs : list B) : M T A :=
  match bs with
  | [] => ret a
  | b :: bs' => a' <- f a b ;; foldM f a' bs'
  end.

(** All elements of all leaves of a structure, for any engine. *)
Definition all_data {T} (s : structure (tensor T)) : list T :=
  flat_map (@data T) (nest.flatten s).

(** The scale that clipping applies to a real record, and the clipped
    record: nothing within the clip norm, [c / norm] beyond it. *)
Definition clip_factor (c : R) (r : structure (tensor R)) : R :=
  if Rle_dec (l2_norm r) c then 1%R else (c / l2_norm r)%R.

Definition clip (c : R) (r : structure (tensor R)) : structure (tensor R) :=
  rescale (clip_factor c r) r.

(** The L2 distance between two real structures of the same shapes. *)
Definition distance (s1 s2 : structure (tensor R)) : R :=
  sqrt (Rsum (map (fun x => x * x)%R
                (zip_with Rminus (elements s1) (elements s2)))).

(** The sum of two real tensors. *)
Definition radd (x y : tensor R) : tensor R :=
  {| shape := shape x; data := zip_with Rplus (data x) (data y) |}.

(** The noise that [tf.random_normal] makes of a standard normal draw. *)
Definition noise_of {T} `{Numeric T} (stddev z : T) : T :=
  nadd (nmul z stddev) (of_Z 0).

(** What a division by the float zero yields. *)
Definition is_special (x : xreal) : Prop := x = PInf \/ x = NInf \/ x = NaN.

(** ** Induction on structures *)

Section StructureInd.
Variable A : Type.
Variable P : structure A -> Prop.
Hypothesis P_leaf : forall a, P (Leaf a).
Hypothesis P_seq : forall items, Forall P items -> P (Seq items).

Fixpoint structure_ind (s : structure A) : P s :=
  match s with
  | Leaf a => P_leaf a
  | Seq items =>
      P_seq ((fix go (l : list (structure A)) : Forall P l :=
                match l with
                | [] => Forall_nil P
                | x :: l' => Forall_cons x (structure_ind x) (go l')
                end) items)
  end.
End StructureInd.

(** ** Lemmas on [nest] *)

Lemma flatten_smap {A B} (f : A -> B) (s : structure A) :
  nest.flatten (smap f s) = map f (nest.flatten s).
Proof.
  induction s as [a | items IH] using structure_ind; [reflexivity |].
  cbn [smap nest.flatten].
  induction IH as [| x l Hx _ IHl]; [reflexivity |].
  cbn [map flat_map]. rewrite map_app, Hx, IHl. reflexivity.
Qed.

Lemma smap_id {A} (s : structure A) : smap (fun a => a) s = s.
Proof.
  induction s as [a | items IH] using structure_ind; [reflexivity |].
  cbn [smap]. f_equal.
  induction IH as [| x l Hx _ IHl]; [reflexivity |].
  cbn [map]. rewrite Hx, IHl. reflexivity.
Qed.

Lemma smap_smap {A B C} (f : A -> B) (g : B -> C) (s : structure A) :
  smap g (smap f s) = smap (fun a => g (f a)) s.
Proof.
  induction s as [a | items IH] using structure_ind; [reflexivity |].
  cbn [smap]. f_equal. rewrite map_map.
  induction IH as [| x l Hx _ IHl]; [reflexivity |].
  cbn [map]. rewrite Hx, IHl. reflexivity.
Qed.

Lemma smap_ext_in {A B} (f g : A -> B) (s : structure A) :
  (forall a, In a (nest.flatten s) -> f a = g a) -> smap f s = smap g s.
Proof.
  induction s as [a | items IH] using structure_ind; intros Hfg.
  - cbn. f_equal. apply Hfg. left. reflexivity.
  - cbn [smap]. f_equal. cbn [nest.flatten] in Hfg.
    induction IH as [| x l Hx _ IHl]; [reflexivity |].
    cbn [map flat_map] in *. f_equal.
    + apply Hx. intros a Ha. apply Hfg, in_or_app. now left.
    + apply IHl. intros a Ha. apply Hfg, in_or_app. now right.
Qed.

Lemma same_structure_smap {A B} (f : A -> B) (s : structure A) :
  nest.same_structure s (smap f s) = true.
Proof.
  induction s as [a | items IH] using structure_ind; [reflexivity |].
  cbn [smap nest.same_structure].
  induction IH as [| x l Hx _ IHl]; [reflexivity |].
  cbn [map]. rewrite Hx, IHl. reflexivity.
Qed.

Lemma same_structure_length {A B} (s1 : structure A) :
  forall s2 : structure B,
    nest.same_structure s1 s2 = true ->
    length (nest.flatten s1) = length (nest.flatten s2).
Proof.
  induction s1 as [a | xs IH] using structure_ind; intros [b | ys] Hs;
    try discriminate; [reflexivity |].
  cbn [nest.same_structure nest.flatten] in *.
  revert ys Hs.
  induction IH as [| x l Hx _ IHl]; intros [| y ys] Hs; try discriminate;
    [reflexivity |].
  apply andb_prop in Hs as [Hxy Hl].
  cbn [flat_map]. rewrite !length_app, (Hx y Hxy), (IHl ys Hl). reflexivity.
Qed.

Lemma same_structure_sym {A B} (s1 : structure A) :
  forall s2 : structure B,
    nest.same_structure s1 s2 = true -> nest.same_structure s2 s1 = true.
Proof.
  induction s1 as [a | xs IH] using structure_ind; intros [b | ys] Hs;
    try discriminate; [reflexivity |].
  cbn [nest.same_structure] in *.
  revert ys Hs.
  induction IH as [| x l Hx _ IHl]; intros [| y ys] Hs; try discriminate;
    [reflexivity |].
  apply andb_prop in Hs as [Hxy Hl].
  rewrite (Hx y Hxy), (IHl ys Hl). reflexivity.
Qed.

Lemma same_structure_trans {A B C} (s1 : structure A) :
  forall (s2 : structure B) (s3 : structure C),
    nest.same_structure s1 s2 = true ->
    nest.same_structure s2 s3 = true ->
    nest.same_structure s1 s3 = true.
Proof.
  induction s1 as [a | xs IH] using structure_ind;
    intros [b | ys] [c | zs] H12 H23; try discriminate; [reflexivity |].
  cbn [nest.same_structure] in *.
  revert ys zs H12 H23.
  induction IH as [| x l Hx _ IHl]; intros [| y ys] [| z zs] H12 H23;
    try discriminate; [reflexivity |].
  apply andb_prop in H12 as [Hxy Hl12].
  apply andb_prop in H23 as [Hyz Hl23].
  rewrite (Hx y z Hxy Hyz), (IHl ys zs Hl12 Hl23). reflexivity.
Qed.

Lemma same_structure_refl {A} (s : structure A) :
  nest.same_structure s s = true.
Proof.
  rewrite <- (smap_id s) at 2. apply same_structure_smap.
Qed.

(** Packing looks at the nesting of its first argument only. *)
Lemma packed_nest_skeleton {A A' B} (s : structure A) :
  forall (s' : structure A') (flat : list B),
    nest.same_structure s s' = true ->
    nest.packed_nest s flat = nest.packed_nest s' flat.
Proof.
  induction s as [a | xs IH] using structure_ind; intros [a' | ys] flat Hs;
    try discriminate; [reflexivity |].
  cbn [nest.same_structure nest.packed_nest] in *.
  match goal with
  | |- match ?g1 xs flat with _ => _ end = match ?g2 ys flat with _ => _ end =>
      assert (Hgo : g1 xs flat = g2 ys flat); [| rewrite Hgo; reflexivity]
  end.
  revert ys flat Hs.
  induction IH as [| x l Hx _ IHl]; intros [| y ys] flat Hs;
    try discriminate; [reflexivity |].
  apply andb_prop in Hs as [Hxy Hl].
  rewrite (Hx y flat Hxy).
  destruct (nest.packed_nest y flat) as [[p rest] |]; [| reflexivity].
  rewrite (IHl ys rest Hl). reflexivity.
Qed.

(** Packing a list of the right length succeeds, consumes exactly that
    list, and yields a structure of the same nesting whose leaves are the
    list. *)
Lemma packed_nest_ok {A B} (s : structure A) :
  forall (flat rest : list B),
    length flat = length (nest.flatten s) ->
    exists p,
      nest.packed_nest s (flat ++ rest) = Some (p, rest) /\
      nest.flatten p = flat /\
      nest.same_structure s p = true.
Proof.
  induction s as [a | xs IH] using structure_ind; intros flat rest Hlen.
  - destruct flat as [| b [| b' flat]]; try discriminate.
    exists (Leaf b). repeat split.
  - cbn [nest.flatten] in Hlen. cbn [nest.packed_nest].
    match goal with
    | |- exists p, match ?g xs _ with _ => _ end = _ /\ _ =>
        assert (Hgo : exists ps,
                   g xs (flat ++ rest) = Some (ps, rest) /\
                   flat_map nest.flatten ps = flat /\
                   nest.same_structure (Seq xs) (Seq ps) = true)
    end.
    { revert flat Hlen.
      induction IH as [| x l Hx _ IHl]; intros flat Hlen.
      - destruct flat; try discriminate. exists []. repeat split.
      - cbn [flat_map] in Hlen. rewrite length_app in Hlen.
        rewrite <- (firstn_skipn (length (nest.flatten x)) flat).
        set (f1 := firstn (length (nest.flatten x)) flat).
        set (f2 := skipn (length (nest.flatten x)) flat).
        assert (H1 : length f1 = length (nest.flatten x)).
        { unfold f1. rewrite length_firstn. lia. }
        assert (H2 : length f2 = length (flat_map nest.flatten l)).
        { unfold f2. rewrite length_skipn. lia. }
        destruct (Hx f1 (f2 ++ rest) H1) as (p & Hp & Hfp & Hsp).
        destruct (IHl f2 H2) as (ps & Hps & Hfps & Hsps).
        exists (p :: ps). rewrite <- app_assoc, Hp, Hps.
        cbn [flat_map nest.same_structure] in *.
        rewrite Hfp, Hfps, Hsp, Hsps. repeat split. }
    destruct Hgo as (ps & Hps & Hfps & Hsps).
    exists (Seq ps). rewrite Hps. repeat split; assumption.
Qed.

Lemma pack_sequence_as_ok {T A B} (s : structure A) (flat : list B)
  (w : world T) :
  length flat = length (nest.flatten s) ->
  exists p,
    nest.pack_sequence_as s flat w = Ok (p, w) /\
    nest.flatten p = flat /\
    nest.same_structure s p = true.
Proof.
  intros Hlen.
  destruct (packed_nest_ok s flat [] Hlen) as (p & Hp & Hfp & Hsp).
  rewrite app_nil_r in Hp. exists p. split; [| now split].
  destruct s as [a | xs].
  - destruct flat as [| b [| b' flat]]; try discriminate.
    cbn in Hp. injection Hp as <-. reflexivity.
  - unfold nest.pack_sequence_as.
    rewrite Hlen, Nat.eqb_refl, Hp. reflexivity.
Qed.

Lemma pack_sequence_as_skeleton {T A A' B} (s : structure A)
  (s' : structure A') (flat : list B) (w : world T) :
  nest.same_structure s s' = true ->
  nest.pack_sequence_as s flat w = nest.pack_sequence_as s' flat w.
Proof.
  intros Hs.
  pose proof (same_structure_length _ _ Hs) as Hlen.
  pose proof (packed_nest_skeleton s s' flat Hs) as Hp.
  destruct s as [a | xs], s' as [a' | ys]; try discriminate; [reflexivity |].
  unfold nest.pack_sequence_as. rewrite Hlen, Hp. reflexivity.
Qed.

Lemma app_inv_length {A} (a b c d : list A) :
  length a = length c -> a ++ b = c ++ d -> a = c /\ b = d.
Proof.
  revert c. induction a as [| x a IH]; intros [| y c] Hlen Happ;
    try discriminate; [now split |].
  cbn in *. injection Happ as -> Happ. injection Hlen as Hlen.
  destruct (IH c Hlen Happ) as [-> ->]. now split.
Qed.

(** A structure is determined by its nesting and its leaves. *)
Lemma structure_eq {A} (s1 : structure A) :
  forall s2 : structure A,
    nest.same_structure s1 s2 = true ->
    nest.flatten s1 = nest.flatten s2 ->
    s1 = s2.
Proof.
  induction s1 as [a | xs IH] using structure_ind; intros [b | ys] Hs Hf;
    try discriminate.
  - cbn in Hf. congruence.
  - f_equal. cbn [nest.same_structure nest.flatten] in *.
    revert ys Hs Hf.
    induction IH as [| x l Hx _ IHl]; intros [| y ys] Hs Hf;
      try discriminate; [reflexivity |].
    apply andb_prop in Hs as [Hxy Hl]. cbn [flat_map] in Hf.
    destruct (app_inv_length _ _ _ _ (same_structure_length _ _ Hxy) Hf)
      as [H1 H2].
    rewrite (Hx y Hxy H1), (IHl ys Hl H2). reflexivity.
Qed.

Lemma pack_sequence_as_map {T A B} (f : A -> B) (s : structure A)
  (w : world T) :
  nest.pack_sequence_as s (map f (nest.flatten s)) w = Ok (smap f s, w).
Proof.
  destruct (pack_sequence_as_ok s (map f (nest.flatten s)) w)
    as (p & Hp & Hfp & Hsp); [apply length_map |].
  rewrite Hp. do 2 f_equal.
  apply structure_eq.
  - apply (same_structure_trans p s (smap f s)).
    + now apply same_structure_sym.
    + apply same_structure_smap.
  - now rewrite flatten_smap.
Qed.

(** ** Lemmas on the effect monad *)

Lemma mapM_ret {T A B} (f : A -> B) (xs : list A) (w : world T) :
  mapM (fun a => ret (f a)) xs w = Ok (map f xs, w).
Proof.
  induction xs as [| x xs IH]; [reflexivity |].
  cbn [mapM map]. unfold bind at 1. unfold ret at 1.
  unfold bind. rewrite IH. reflexivity.
Qed.

Lemma map_structure_ret {T A B} (f : A -> B) (s : structure A) (w : world T) :
  nest.map_structure (fun a => ret (f a)) s w = Ok (smap f s, w).
Proof.
  unfold nest.map_structure, bind. rewrite mapM_ret.
  apply pack_sequence_as_map.
Qed.

Section Generic.
Context {T : Type} `{Numeric T}.

Lemma add_same_shape (x y : tensor T) (w : world T) :
  shape x = shape y -> tf.add x y w = Ok (tadd x y, w).
Proof.
  intros Hs. unfold tf.add.
  destruct (list_eq_dec Nat.eq_dec (shape x) (shape y)); [reflexivity | easy].
Qed.

(** [tf.add] changes nothing outside. *)
Lemma add_frame (x y z : tensor T) (w w' : world T) :
  tf.add x y w = Ok (z, w') -> w' = w.
Proof.
  unfold tf.add.
  destruct (list_eq_dec Nat.eq_dec (shape x) (shape y));
    unfold ret, raise; congruence.
Qed.

Lemma mapM2_add_same_shape (xs ys : list (tensor T)) (w : world T) :
  map (@shape T) xs = map (@shape T) ys ->
  mapM2 tf.add xs ys w = Ok (zip_with tadd xs ys, w).
Proof.
  revert ys. induction xs as [| x xs IH]; intros [| y ys] Hs;
    try discriminate; [reflexivity |].
  cbn in Hs. injection Hs as Hxy Hs.
  cbn [mapM2 zip_with]. unfold bind at 1.
  rewrite (add_same_shape _ _ _ Hxy). unfold bind at 1.
  rewrite (IH ys Hs). reflexivity.
Qed.

Lemma mapM2_add_frame (xs ys zs : list (tensor T)) (w w' : world T) :
  mapM2 tf.add xs ys w = Ok (zs, w') ->
  w' = w /\ length zs = Nat.min (length xs) (length ys).
Proof.
  revert ys zs w'. induction xs as [| x xs IH]; intros [| y ys] zs w';
    cbn [mapM2]; try (unfold ret; intros [= <- <-]; now split).
  unfold bind at 1.
  destruct (tf.add x y w) as [[z w1] | e] eqn:Hadd; [| discriminate].
  apply add_frame in Hadd as ->. unfold bind at 1.
  destruct (mapM2 tf.add xs ys w) as [[zs' w2] | e] eqn:Hrec; [| discriminate].
  destruct (IH ys zs' w2 Hrec) as [-> Hlen].
  unfold ret. intros [= <- <-]. cbn. now rewrite Hlen.
Qed.

(** Adding a record to a sample state changes nothing outside. *)
Lemma map_structure2_add_frame (s1 s2 s : structure (tensor T))
  (w w' : world T) :
  nest.map_structure2 tf.add s1 s2 w = Ok (s, w') -> w' = w.
Proof.
  unfold nest.map_structure2.
  destruct (nest.same_structure s1 s2) eqn:Hs; [| discriminate].
  unfold bind.
  destruct (mapM2 tf.add _ _ w) as [[zs w1] | e] eqn:Hz; [| discriminate].
  apply mapM2_add_frame in Hz as [-> Hlen].
  rewrite <- (same_structure_length _ _ Hs), Nat.min_id in Hlen.
  destruct (pack_sequence_as_ok s1 zs w Hlen) as (p & Hp & _).
  rewrite Hp. congruence.
Qed.

(** The clipped record: every leaf of the record times the scale. *)
Lemma clipped_eq (params : T) (record : structure (tensor T)) (w : world T) :
  GaussianSumQuery.clipped params record w =
  Ok ((smap (fun v => tf.mul_scalar v
                        (tf.clip_scale (tf.global_norm (nest.flatten record))
                           params)) record,
       tf.global_norm (nest.flatten record)), w).
Proof.
  unfold GaussianSumQuery.clipped, tf.clip_by_global_norm, bind.
  rewrite pack_sequence_as_map. reflexivity.
Qed.

(** [accumulate_record] adds the clipped record to the sample state. *)
Lemma accumulate_record_eq (q : GaussianSumQuery.t) (params : T)
  (sample_state record : structure (tensor T)) (w : world T) :
  GaussianSumQuery.accumulate_record q params sample_state record w =
  nest.map_structure2 tf.add sample_state
    (smap (fun v => tf.mul_scalar v
                      (tf.clip_scale (tf.global_norm (nest.flatten record))
                         params)) record) w.
Proof.
  unfold GaussianSumQuery.accumulate_record,
    GaussianSumQuery.accumulate_record_impl.
  unfold bind at 1 2. rewrite clipped_eq. unfold bind.
  destruct (nest.map_structure2 _ _ _ w) as [[s w'] | e]; reflexivity.
Qed.

End Generic.

(** ** Exact arithmetic *)

Section Exact.
Open Scope R_scope.

Lemma Rsum_app (xs ys : list R) : Rsum (xs ++ ys) = Rsum xs + Rsum ys.
Proof.
  induction xs as [| x xs IH]; cbn; lra.
Qed.

Lemma Rsum_squares_nonneg (xs : list R) : 0 <= Rsum (map (fun x => x * x) xs).
Proof.
  induction xs as [| x xs IH]; cbn; nra.
Qed.

Lemma Rsum_squares_scaled (k : R) (xs : list R) :
  Rsum (map (fun x => x * x) (map (fun x => x * k) xs)) =
  k * k * Rsum (map (fun x => x * x) xs).
Proof.
  induction xs as [| x xs IH]; cbn; [lra |].
  rewrite IH. ring.
Qed.

Lemma fold_left_xadd_Fin (xs : list R) (a : R) :
  fold_left xadd (map Fin xs) (Fin a) = Fin (a + Rsum xs).
Proof.
  revert a. induction xs as [| x xs IH]; intros a; cbn.
  - f_equal. lra.
  - rewrite IH. f_equal. lra.
Qed.

Lemma reduce_sum_Fin (xs : list R) : tf.reduce_sum (map Fin xs) = Fin (Rsum xs).
Proof.
  unfold tf.reduce_sum. cbn [nadd of_Z xreal_Numeric].
  rewrite fold_left_xadd_Fin. f_equal. lra.
Qed.

Lemma l2_loss_Fin (t : tensor R) :
  tf.l2_loss (tmap Fin t) = Fin (Rsum (map (fun x => x * x) (data t)) / 2).
Proof.
  unfold tf.l2_loss. cbn [tmap data nmul ndiv of_Z xreal_Numeric].
  rewrite map_map.
  rewrite <- (map_map (fun x => x * x) Fin), reduce_sum_Fin.
  cbn [xdiv]. destruct (Req_dec_T 2 0); [lra | reflexivity].
Qed.

Lemma Rsum_halves (ts : list (tensor R)) :
  Rsum (map (fun t => Rsum (map (fun x => x * x) (data t)) / 2) ts) * 2 =
  Rsum (map (fun x => x * x) (flat_map (@data R) ts)).
Proof.
  induction ts as [| t ts IH]; cbn; [lra |].
  rewrite map_app, Rsum_app, <- IH. lra.
Qed.

(** The global norm TensorFlow computes is the joint L2 norm. *)
Lemma global_norm_Fin (ts : list (tensor R)) :
  tf.global_norm (map (tmap Fin) ts) =
  Fin (sqrt (Rsum (map (fun x => x * x) (flat_map (@data R) ts)))).
Proof.
  unfold tf.global_norm. rewrite map_map.
  rewrite (map_ext _ _ l2_loss_Fin).
  rewrite <- (map_map (fun t => Rsum (map (fun x => x * x) (data t)) / 2) Fin).
  rewrite reduce_sum_Fin. cbn [nmul nsqrt of_Z xreal_Numeric xmul xsqrt].
  rewrite Rsum_halves.
  destruct (Rlt_dec _ 0) as [Hneg |]; [| reflexivity].
  pose proof (Rsum_squares_nonneg (flat_map (@data R) ts)). lra.
Qed.

Lemma global_norm_lift (r : structure (tensor R)) :
  tf.global_norm (nest.flatten (lift r)) = Fin (l2_norm r).
Proof.
  unfold lift. rewrite flatten_smap. apply global_norm_Fin.
Qed.

Lemma l2_norm_nonneg (r : structure (tensor R)) : 0 <= l2_norm r.
Proof. apply sqrt_pos. Qed.

Lemma elements_rescale (k : R) (r : structure (tensor R)) :
  elements (rescale k r) = map (fun x => x * k) (elements r).
Proof.
  unfold elements, rescale. rewrite flatten_smap.
  induction (nest.flatten r) as [| t ts IH]; [reflexivity |].
  cbn [map flat_map tmap data]. rewrite map_app, IH. reflexivity.
Qed.

Lemma l2_norm_rescale (k : R) (r : structure (tensor R)) :
  0 <= k -> l2_norm (rescale k r) = k * l2_norm r.
Proof.
  intros Hk. unfold l2_norm.
  rewrite elements_rescale, Rsum_squares_scaled.
  rewrite sqrt_mult; [| nra | apply Rsum_squares_nonneg].
  rewrite sqrt_square; [reflexivity | assumption].
Qed.

(** The scale of the clipping, by cases on the norm and the clip norm. *)
Lemma clip_scale_above (n c : R) :
  0 <= c -> c < n -> tf.clip_scale (Fin n) (Fin c) = Fin (c / n).
Proof.
  intros Hc Hn. unfold tf.clip_scale.
  cbn [nmul nmin ndiv of_Z xreal_Numeric xdiv].
  destruct (Req_dec_T n 0); [lra |].
  destruct (Req_dec_T c 0) as [-> | Hc0].
  - destruct (Req_dec_T 1 0); [lra |]. destruct (Rlt_dec 0 1); [| lra].
    cbn. f_equal. lra.
  - unfold xmin, xlt.
    destruct (Rlt_dec (1 / n) (1 / c)) as [_ | Hge].
    + cbn. f_equal. unfold Rdiv. ring.
    + exfalso. apply Hge. unfold Rdiv. rewrite !Rmult_1_l.
      apply Rinv_lt_contravar; nra.
Qed.

Lemma clip_scale_below (n c : R) :
  0 < c -> 0 <= n -> n <= c -> tf.clip_scale (Fin n) (Fin c) = Fin 1.
Proof.
  intros Hc Hn Hle. unfold tf.clip_scale.
  cbn [nmul nmin ndiv of_Z xreal_Numeric xdiv].
  destruct (Req_dec_T c 0); [lra |].
  assert (Hone : Fin (c * (1 / c)) = Fin 1) by (f_equal; field; lra).
  destruct (Req_dec_T n 0) as [-> | Hn0].
  - destruct (Req_dec_T 1 0); [lra |]. destruct (Rlt_dec 0 1); [| lra].
    cbn. exact Hone.
  - unfold xmin, xlt.
    destruct (Rlt_dec (1 / n) (1 / c)) as [Hlt | _]; [| exact Hone].
    exfalso. unfold Rdiv in Hlt. rewrite !Rmult_1_l in Hlt.
    assert (/ c <= / n) by (apply Rinv_le_contravar; lra). lra.
Qed.

Lemma clip_scale_zero_zero : tf.clip_scale (Fin 0) (Fin 0) = NaN.
Proof.
  unfold tf.clip_scale. cbn [nmul nmin ndiv of_Z xreal_Numeric xdiv].
  destruct (Req_dec_T 0 0); [| lra].
  destruct (Req_dec_T 1 0); [lra |]. destruct (Rlt_dec 0 1); [| lra].
  cbn. unfold inf_times. destruct (Req_dec_T 0 0); [reflexivity | lra].
Qed.

(** Multiplying a lifted record by a finite scale. *)
Lemma mul_scalar_lift (k : R) (r : structure (tensor R)) :
  smap (fun v => tf.mul_scalar v (Fin k)) (lift r) = lift (rescale k r).
Proof.
  unfold lift, rescale. rewrite !smap_smap. apply smap_ext_in.
  intros t _. unfold tf.mul_scalar, tmap. cbn [shape data]. f_equal.
  rewrite !map_map. reflexivity.
Qed.

Lemma rescale_one (r : structure (tensor R)) : rescale 1 r = r.
Proof.
  unfold rescale. rewrite <- (smap_id r) at 2. apply smap_ext_in.
  intros [s d] _. unfold tmap. cbn. f_equal.
  rewrite <- (map_id d) at 2. apply map_ext. intros x. lra.
Qed.

End Exact.

(** ** Noise *)

Section Noise.
Context {T : Type} `{Numeric T}.

(** The noise added to a leaf [v], drawn in world [w]. *)
Lemma add_noise_eq (q : GaussianSumQuery.t) (v : tensor T) (w : world T) :
  exists noise w',
    GaussianSumQuery.add_noise q v w = Ok (tadd v noise, w') /\
    tf.random_normal (shape v) (GaussianSumQuery._stddev q) w = Ok (noise, w') /\
    ledger_calls w' = ledger_calls w /\
    standard_normal w' = standard_normal w.
Proof.
  unfold GaussianSumQuery.add_noise, tf.random_normal,
    tf.random_standard_normal, bind, ret.
  eexists. eexists. split; [| split; [reflexivity | split; reflexivity]].
  apply add_same_shape. reflexivity.
Qed.

(** Noising a list of leaves never raises and leaves the ledgers alone. *)
Lemma mapM_add_noise_ok (q : GaussianSumQuery.t) (vs : list (tensor T)) :
  forall w : world T,
  exists ys w',
    mapM (GaussianSumQuery.add_noise q) vs w = Ok (ys, w') /\
    length ys = length vs /\
    ledger_calls w' = ledger_calls w /\
    standard_normal w' = standard_normal w.
Proof.
  induction vs as [| v vs IH]; intros w.
  - exists [], w. repeat split.
  - destruct (add_noise_eq q v w) as (noise & w1 & Hv & _ & Hl1 & Hs1).
    destruct (IH w1) as (ys & w2 & Hys & Hlen & Hl2 & Hs2).
    exists (tadd v noise :: ys), w2.
    cbn [mapM]. unfold bind at 1. rewrite Hv. unfold bind at 1.
    rewrite Hys. unfold ret. cbn [length].
    repeat split; congruence.
Qed.

Lemma get_noised_result_ok {G} (q : GaussianSumQuery.t)
  (sample_state : structure (tensor T)) (global_state : option G)
  (w : world T) :
  exists estimate w',
    GaussianSumQuery.get_noised_result q sample_state global_state w =
      Ok ((estimate, global_state), w') /\
    nest.same_structure sample_state estimate = true /\
    ledger_calls w' = ledger_calls w.
Proof.
  unfold GaussianSumQuery.get_noised_result, nest.map_structure.
  destruct (mapM_add_noise_ok q (nest.flatten sample_state) w)
    as (ys & w1 & Hys & Hlen & Hl & _).
  destruct (pack_sequence_as_ok sample_state ys w1 Hlen) as (p & Hp & _ & Hsp).
  exists p, w1. unfold bind at 1 2. rewrite Hys, Hp. now repeat split.
Qed.

End Noise.

(** ** Shapes *)

Lemma same_shapes_refl {A} (s : structure (tensor A)) : same_shapes s s.
Proof. split; [apply same_structure_refl | reflexivity]. Qed.

Lemma same_shapes_sym {A B} (s1 : structure (tensor A))
  (s2 : structure (tensor B)) :
  same_shapes s1 s2 -> same_shapes s2 s1.
Proof.
  intros [Hs Hm]. split; [now apply same_structure_sym | now symmetry].
Qed.

Lemma same_shapes_trans {A B C} (s1 : structure (tensor A))
  (s2 : structure (tensor B)) (s3 : structure (tensor C)) :
  same_shapes s1 s2 -> same_shapes s2 s3 -> same_shapes s1 s3.
Proof.
  intros [Hs12 Hm12] [Hs23 Hm23]. split.
  - exact (same_structure_trans _ _ _ Hs12 Hs23).
  - congruence.
Qed.

Lemma same_shapes_smap {A B} (f : tensor A -> tensor B)
  (s : structure (tensor A)) :
  (forall t, shape (f t) = shape t) -> same_shapes (smap f s) s.
Proof.
  intros Hf. split.
  - apply same_structure_sym, same_structure_smap.
  - rewrite flatten_smap, map_map. apply map_ext. exact Hf.
Qed.

Lemma smap_same_shapes {A B C} (f : tensor A -> C) (g : tensor B -> C)
  (s1 : structure (tensor A)) (s2 : structure (tensor B)) :
  same_shapes s1 s2 ->
  (forall t1 t2, shape t1 = shape t2 -> f t1 = g t2) ->
  smap f s1 = smap g s2.
Proof.
  intros [Hs Hm] Hfg. apply structure_eq.
  - apply (same_structure_trans (smap f s1) s1 (smap g s2)).
    + apply same_structure_sym, same_structure_smap.
    + apply (same_structure_trans s1 s2 (smap g s2) Hs).
      apply same_structure_smap.
  - rewrite !flatten_smap.
    revert Hm. generalize (nest.flatten s1), (nest.flatten s2).
    intros xs. induction xs as [| x xs IH]; intros [| y ys] Hm;
      try discriminate; [reflexivity |].
    cbn in *. injection Hm as Hxy Hm. now rewrite (Hfg x y Hxy), (IH ys Hm).
Qed.

Section Accumulate.
Context {T : Type} `{Numeric T}.

Lemma map_shape_zip_tadd (xs ys : list (tensor T)) :
  map (@shape T) xs = map (@shape T) ys ->
  map (@shape T) (zip_with tadd xs ys) = map (@shape T) xs.
Proof.
  revert ys. induction xs as [| x xs IH]; intros [| y ys] Hm;
    try discriminate; [reflexivity |].
  cbn in *. injection Hm as _ Hm. now rewrite (IH ys Hm).
Qed.

(** Adding two structures of the same shapes: the leaves are added
    pairwise, nothing is raised and nothing outside changes. *)
Lemma map_structure2_add_ok (s1 s2 : structure (tensor T)) (w : world T) :
  same_shapes s1 s2 ->
  exists p,
    nest.map_structure2 tf.add s1 s2 w = Ok (p, w) /\
    nest.flatten p = zip_with tadd (nest.flatten s1) (nest.flatten s2) /\
    same_shapes p s1.
Proof.
  intros [Hs Hm]. unfold nest.map_structure2. rewrite Hs. unfold bind.
  rewrite (mapM2_add_same_shape _ _ w Hm).
  destruct (pack_sequence_as_ok s1
              (zip_with tadd (nest.flatten s1) (nest.flatten s2)) w)
    as (p & Hp & Hfp & Hsp).
  { apply (f_equal (@length _)) in Hm. rewrite !length_map in Hm.
    clear - Hm. revert Hm. generalize (nest.flatten s1), (nest.flatten s2).
    intros xs. induction xs as [| x xs IH]; intros [| y ys] Hlen;
      try discriminate; [reflexivity |].
    cbn in *. injection Hlen as Hlen. now rewrite (IH ys Hlen). }
  exists p. split; [exact Hp | split; [exact Hfp |]].
  split; [now apply same_structure_sym |].
  rewrite Hfp. now apply map_shape_zip_tadd.
Qed.

Lemma mul_scalar_shapes (k : T) (r : structure (tensor T)) :
  same_shapes (smap (fun v => tf.mul_scalar v k) r) r.
Proof. apply same_shapes_smap. reflexivity. Qed.

(** Accumulating a record of the sample state's shapes succeeds. *)
Lemma accumulate_record_ok (q : GaussianSumQuery.t) (params : T)
  (sample_state record : structure (tensor T)) (w : world T) :
  same_shapes record sample_state ->
  exists s,
    GaussianSumQuery.accumulate_record q params sample_state record w =
      Ok (s, w) /\
    nest.flatten s =
      zip_with tadd (nest.flatten sample_state)
        (map (fun v => tf.mul_scalar v
                         (tf.clip_scale
                            (tf.global_norm (nest.flatten record)) params))
           (nest.flatten record)) /\
    same_shapes s sample_state.
Proof.
  intros Hsh. rewrite accumulate_record_eq, <- flatten_smap.
  apply map_structure2_add_ok.
  apply same_shapes_sym.
  exact (same_shapes_trans (mul_scalar_shapes _ record) Hsh).
Qed.

Lemma accumulate_record_frame (q : GaussianSumQuery.t) (params : T)
  (sample_state record s : structure (tensor T)) (w w' : world T) :
  GaussianSumQuery.accumulate_record q params sample_state record w =
    Ok (s, w') -> w' = w.
Proof.
  rewrite accumulate_record_eq. apply map_structure2_add_frame.
Qed.

Lemma foldM_accumulate_frame (q : GaussianSumQuery.t) (params : T)
  (records : list (structure (tensor T))) :
  forall (s0 s : structure (tensor T)) (w w' : world T),
    foldM (GaussianSumQuery.accumulate_record q params) s0 records w =
      Ok (s, w') -> w' = w.
Proof.
  induction records as [| r records IH]; intros s0 s w w'; cbn [foldM].
  - unfold ret. congruence.
  - unfold bind.
    destruct (GaussianSumQuery.accumulate_record q params s0 r w)
      as [[s1 w1] | e] eqn:Hacc; [| discriminate].
    apply accumulate_record_frame in Hacc as ->. apply IH.
Qed.

Lemma foldM_accumulate_ok (q : GaussianSumQuery.t) (params : T)
  (records : list (structure (tensor T))) :
  forall (s0 : structure (tensor T)) (w : world T),
    Forall (fun r => same_shapes r s0) records ->
    exists s,
      foldM (GaussianSumQuery.accumulate_record q params) s0 records w =
        Ok (s, w) /\
      same_shapes s s0.
Proof.
  induction records as [| r records IH]; intros s0 w Hall; cbn [foldM].
  - exists s0. split; [reflexivity | apply same_shapes_refl].
  - inversion Hall as [| r' records' Hr Hrest]; subst.
    destruct (accumulate_record_ok q params w Hr) as (s1 & Hacc & _ & Hs1).
    destruct (IH s1 w) as (s & Hfold & Hs).
    { eapply Forall_impl; [| exact Hrest]. cbn. intros a Ha.
      exact (same_shapes_trans Ha (same_shapes_sym Hs1)). }
    exists s. unfold bind. rewrite Hacc. split; [exact Hfold |].
    exact (same_shapes_trans Hs Hs1).
Qed.

(** The initial sample state: zeros of the template's shapes, after the
    ledger, if any, has received its call. *)
Lemma initial_sample_state_eq {G} (q : GaussianSumQuery.t)
  (global_state : option G) (tensors : structure (tensor T)) (w : world T) :
  GaussianSumQuery.initial_sample_state q global_state tensors w =
  Ok (smap tf.zeros_like tensors,
      match GaussianSumQuery._ledger q with
      | Some l =>
          log_call (RecordSumQuery l (GaussianSumQuery._l2_norm_clip q)
                      (GaussianSumQuery._stddev q)) w
      | None => w
      end).
Proof.
  unfold GaussianSumQuery.initial_sample_state, tf.control_dependencies.
  destruct (GaussianSumQuery._ledger q) as [l |];
    unfold bind, ledger.record_sum_query, ret;
    apply (map_structure_ret tf.zeros_like).
Qed.

(** The average query normalizes what the sum query returns. *)
Lemma average_get_noised_result_eq {G} (q : GaussianAverageQuery.t)
  (sample_state noised_sum : structure (tensor T))
  (global_state new_global_state : option G) (w w' : world T) :
  GaussianSumQuery.get_noised_result (GaussianAverageQuery._numerator q)
    sample_state global_state w = Ok ((noised_sum, new_global_state), w') ->
  GaussianAverageQuery.get_noised_result q sample_state global_state w =
    Ok ((smap (fun v => tf.truediv v (GaussianAverageQuery._denominator q))
           noised_sum, new_global_state), w').
Proof.
  intros Hsum. unfold GaussianAverageQuery.get_noised_result.
  unfold bind at 1. rewrite Hsum. unfold bind.
  rewrite (map_structure_ret (GaussianAverageQuery.normalize q)). reflexivity.
Qed.

End Accumulate.

(** * The claims *)

(** ** Construction *)

(** A round of the sum query on records of the template's nesting and
    shapes returns, whatever the query holds. *)
Lemma sum_round_returns {T} `{Numeric T} {G} (q : GaussianSumQuery.t)
  (global_state : option G) (tensors : structure (tensor T))
  (records : list (structure (tensor T))) (w : world T) :
  Forall (fun r => same_shapes r tensors) records ->
  exists estimate w',
    (s0 <- GaussianSumQuery.initial_sample_state q global_state tensors ;;
     s <- foldM (GaussianSumQuery.accumulate_record q
                   (GaussianSumQuery.derive_sample_params q global_state))
            s0 records ;;
     GaussianSumQuery.get_noised_result q s global_state) w =
      Ok ((estimate, global_state), w').
Proof.
  intros Hall. unfold bind at 1. rewrite initial_sample_state_eq.
  set (w1 := match GaussianSumQuery._ledger q with
             | Some l => log_call _ w
             | None => w
             end).
  destruct (foldM_accumulate_ok q
              (GaussianSumQuery.derive_sample_params q global_state)
              (s0 := smap tf.zeros_like tensors) (records := records) w1)
    as (s & Hfold & _).
  { eapply Forall_impl; [| exact Hall]. cbn. intros r Hr.
    apply (same_shapes_trans Hr), same_shapes_sym, same_shapes_smap.
    reflexivity. }
  unfold bind at 1. rewrite Hfold.
  destruct (get_noised_result_ok q s global_state w1)
    as (estimate & w2 & Hres & _).
  now exists estimate, w2.
Qed.

(** The same for the average query. *)
Lemma average_round_returns {T} `{Numeric T} {G}
  (qa : GaussianAverageQuery.t) (global_state : option G)
  (tensors : structure (tensor T))
  (records : list (structure (tensor T))) (w : world T) :
  Forall (fun r => same_shapes r tensors) records ->
  exists estimate w',
    (s0 <- GaussianAverageQuery.initial_sample_state qa global_state
             tensors ;;
     s <- foldM (GaussianAverageQuery.accumulate_record qa
                   (GaussianAverageQuery.derive_sample_params qa global_state))
            s0 records ;;
     GaussianAverageQuery.get_noised_result qa s global_state) w =
      Ok ((estimate, global_state), w').
Proof.
  intros Hall.
  unfold GaussianAverageQuery.initial_sample_state,
    GaussianAverageQuery.derive_sample_params.
  change (GaussianAverageQuery.accumulate_record qa)
    with (GaussianSumQuery.accumulate_record
            (GaussianAverageQuery._numerator qa)).
  set (q := GaussianAverageQuery._numerator qa).
  unfold bind at 1. rewrite initial_sample_state_eq.
  set (w1 := match GaussianSumQuery._ledger q with
             | Some l => log_call _ w
             | None => w
             end).
  destruct (foldM_accumulate_ok q
              (GaussianSumQuery.derive_sample_params q global_state)
              (s0 := smap tf.zeros_like tensors) (records := records) w1)
    as (s & Hfold & _).
  { eapply Forall_impl; [| exact Hall]. cbn. intros r Hr.
    apply (same_shapes_trans Hr), same_shapes_sym, same_shapes_smap.
    reflexivity. }
  unfold bind at 1. rewrite Hfold.
  destruct (get_noised_result_ok q s global_state w1)
    as (noised & w2 & Hsum & _).
  eexists. exists w2. apply average_get_noised_result_eq. exact Hsum.
Qed.

(** C3 (as amended).  The constructors make no check of sign, and no
    failure is deferred to the first use.  For a clip norm, a standard
    deviation and a denominator that [tf.to_float] accepts, negative or
    not, constructing a [GaussianSumQuery] or a [GaussianAverageQuery]
    returns a query that holds the arguments converted by [tf.to_float]
    and the ledger as given, and a round of that query (the initial
    sample state, the records accumulated, the noised result) on records
    of the template's nesting and shapes returns a result. *)
Theorem constructors_make_no_sign_check :
  forall (T : Type) (N : Numeric T) (G : Type)
         (l2_norm_clip stddev denominator : pynum T)
         (ledger : option ledger_ref) (global_state : option G)
         (tensors : structure (tensor T))
         (records : list (structure (tensor T))) (w : world T),
    convertible l2_norm_clip ->
    convertible stddev ->
    convertible denominator ->
    Forall (fun r => same_shapes r tensors) records ->
    exists q qa,
      GaussianSumQuery.__init__ l2_norm_clip stddev ledger = Ok q /\
      GaussianSumQuery._l2_norm_clip q = tf.to_float l2_norm_clip /\
      GaussianSumQuery._stddev q = tf.to_float stddev /\
      GaussianSumQuery._ledger q = ledger /\
      GaussianAverageQuery.__init__ l2_norm_clip stddev denominator ledger =
        Ok qa /\
      GaussianAverageQuery._numerator qa = q /\
      GaussianAverageQuery._denominator qa = tf.to_float denominator /\
      (exists estimate w',
          (s0 <- GaussianSumQuery.initial_sample_state q global_state
                   tensors ;;
           s <- foldM (GaussianSumQuery.accumulate_record q
                         (GaussianSumQuery.derive_sample_params q
                            global_state))
                  s0 records ;;
           GaussianSumQuery.get_noised_result q s global_state) w =
            Ok ((estimate, global_state), w')) /\
      (exists estimate w',
          (s0 <- GaussianAverageQuery.initial_sample_state qa global_state
                   tensors ;;
           s <- foldM (GaussianAverageQuery.accumulate_record qa
                         (GaussianAverageQuery.derive_sample_params qa
                            global_state))
                  s0 records ;;
           GaussianAverageQuery.get_noised_result qa s global_state) w =
            Ok ((estimate, global_state), w')).
Proof.
  intros T N G l2_norm_clip stddev denominator ledger global_state tensors
    records w _ _ _ Hall.
  exists (GaussianSumQuery.mk (tf.to_float l2_norm_clip) (tf.to_float stddev)
            ledger).
  exists (GaussianAverageQuery.mk
            (GaussianSumQuery.mk (tf.to_float l2_norm_clip)
               (tf.to_float stddev) ledger)
            (tf.to_float denominator)).
  repeat (split; [reflexivity |]).
  split.
  - now apply sum_round_returns.
  - now apply average_round_returns.
Qed.

(** C3 (as amended) at clip norm -1, standard deviation -1 and
    denominator 3, with a ledger, on two records of shape (2,). *)
Lemma constructors_make_no_sign_check_witness :
  let tensors := Leaf (vector [Fin 0; Fin 0]) in
  let records := [Leaf (vector [Fin 3; Fin 4]); Leaf (vector [Fin 0; Fin 12])] in
  exists q qa,
    GaussianSumQuery.__init__ (T := xreal) (PyInt (-1)) (PyInt (-1))
      (Some 7%nat) = Ok q /\
    GaussianSumQuery._l2_norm_clip q = Fin (-1) /\
    GaussianSumQuery._stddev q = Fin (-1) /\
    GaussianAverageQuery.__init__ (T := xreal) (PyInt (-1)) (PyInt (-1))
      (PyInt 3) (Some 7%nat) = Ok qa /\
    (exists estimate w',
        (s0 <- GaussianSumQuery.initial_sample_state q (@None unit)
                 tensors ;;
         s <- foldM (GaussianSumQuery.accumulate_record q
                       (GaussianSumQuery.derive_sample_params q (@None unit)))
                s0 records ;;
         GaussianSumQuery.get_noised_result q s (@None unit)) quiet_world =
          Ok ((estimate, None), w')) /\
    (exists estimate w',
        (s0 <- GaussianAverageQuery.initial_sample_state qa (@None unit)
                 tensors ;;
         s <- foldM (GaussianAverageQuery.accumulate_record qa
                       (GaussianAverageQuery.derive_sample_params qa
                          (@None unit)))
                s0 records ;;
         GaussianAverageQuery.get_noised_result qa s (@None unit))
          quiet_world = Ok ((estimate, None), w')).
Proof.
  intros tensors records.
  destruct (@constructors_make_no_sign_check xreal _ unit (PyInt (-1))
              (PyInt (-1)) (PyInt 3) (Some 7%nat) None tensors records
              quiet_world)
    as (q & qa & Hq & Hclip & Hstd & _ & Hqa & _ & _ & Hsum & Havg).
  - cbn. lia.
  - cbn. lia.
  - cbn. lia.
  - repeat constructor.
  - exists q, qa. repeat (split; [assumption |]). assumption.
Defined.

(** C3, the claim as stated fails: with clip norm -1 and standard
    deviation -1 both constructors return a query, holding -1 and -1, and
    raise nothing.  Nor does the first use raise: in binary32 the round
    of such a query on the record [[3; 4]] returns [[3; 5]], the record
    unclipped plus the draws 0 and -1 times -1. *)
Lemma negative_parameters_are_accepted :
  GaussianSumQuery.__init__ (T := xreal) (PyInt (-1)) (PyInt (-1)) None =
    Ok (GaussianSumQuery.mk (Fin (-1)) (Fin (-1)) None) /\
  GaussianAverageQuery.__init__ (T := xreal) (PyInt (-1)) (PyInt (-1))
    (PyInt 3) None =
    Ok (GaussianAverageQuery.mk
          (GaussianSumQuery.mk (Fin (-1)) (Fin (-1)) None) (Fin 3)) /\
  (forall e,
      GaussianSumQuery.__init__ (T := xreal) (PyInt (-1)) (PyInt (-1)) None <>
        Raise e) /\
  (forall e,
      GaussianAverageQuery.__init__ (T := xreal) (PyInt (-1)) (PyInt (-1))
        (PyInt 3) None <> Raise e) /\
  match GaussianSumQuery.__init__ (T := binary32) (PyInt (-1)) (PyInt (-1))
          None with
  | Ok q =>
      returned
        ((s0 <- GaussianSumQuery.initial_sample_state q (@None unit)
                  (Leaf (vector [of_Z 0; of_Z 0])) ;;
          s1 <- GaussianSumQuery.accumulate_record q
                  (GaussianSumQuery.derive_sample_params q (@None unit)) s0
                  (Leaf (vector [of_Z 3; of_Z 4])) ;;
          GaussianSumQuery.get_noised_result q s1 (@None unit))
           quiet_world32) =
        Ok (Leaf (vector [of_Z 3; of_Z 5]), None)
  | Raise _ => False
  end.
Proof.
  split; [reflexivity | split; [reflexivity | split; [| split]]];
    try (intros e; discriminate).
  vm_compute. reflexivity.
Qed.

(** ** The initial sample state *)

(** C8.  [initial_sample_state] returns, for every global state and every
    template, the structure of the template with each leaf replaced by
    zeros of the leaf's shape: the nesting and the shapes are the
    template's, every element is zero, a template of shape (n,) gives n
    zeros, and two templates of the same nesting and shapes give the same
    result whatever their values. *)
Theorem initial_sample_state_zeros :
  forall (T : Type) (N : Numeric T) (G : Type)
         (q : GaussianSumQuery.t) (global_state : option G)
         (tensors : structure (tensor T)) (w : world T),
    exists zeros w',
      GaussianSumQuery.initial_sample_state q global_state tensors w =
        Ok (zeros, w') /\
      same_shapes zeros tensors /\
      Forall (fun z => data z = repeat (of_Z 0) (numel (shape z)))
        (nest.flatten zeros) /\
      (forall (n : nat) (xs : list T),
          length xs = n ->
          tensors = Leaf (vector xs) ->
          zeros = Leaf (vector (repeat (of_Z 0) n))) /\
      (forall tensors' : structure (tensor T),
          same_shapes tensors' tensors ->
          GaussianSumQuery.initial_sample_state q global_state tensors' w =
            Ok (zeros, w')).
Proof.
  intros T N G q global_state tensors w.
  eexists. eexists. split; [apply initial_sample_state_eq |].
  split; [| split; [| split]].
  - apply same_shapes_smap. reflexivity.
  - rewrite flatten_smap. apply Forall_map, Forall_forall.
    intros t _. reflexivity.
  - intros n xs Hn ->. cbn. unfold tf.zeros_like, tf.zeros, vector. cbn.
    rewrite Nat.mul_1_r, repeat_length, Hn. reflexivity.
  - intros tensors' Hsh. rewrite initial_sample_state_eq. do 2 f_equal.
    apply (smap_same_shapes _ _ Hsh).
    intros t1 t2 Ht. unfold tf.zeros_like. now rewrite Ht.
Qed.

(** ** The global state *)

(** C9.  [get_noised_result] of both queries returns, for every sample
    state and every global state, a result whose second component is the
    global state it was given; the initial global state of both is
    [None]. *)
Theorem get_noised_result_passes_global_state :
  forall (T : Type) (N : Numeric T) (G : Type)
         (q : GaussianSumQuery.t) (qa : GaussianAverageQuery.t)
         (sample_state : structure (tensor T)) (global_state : option G)
         (w : world T),
    (exists estimate w',
        GaussianSumQuery.get_noised_result q sample_state global_state w =
          Ok ((estimate, global_state), w')) /\
    (exists estimate w',
        GaussianAverageQuery.get_noised_result qa sample_state global_state w =
          Ok ((estimate, global_state), w')) /\
    GaussianSumQuery.initial_global_state G q = None /\
    GaussianAverageQuery.initial_global_state G qa = None.
Proof.
  intros T N G q qa sample_state global_state w.
  split; [| split; [| split; reflexivity]].
  - destruct (get_noised_result_ok q sample_state global_state w)
      as (estimate & w' & Hq & _).
    now exists estimate, w'.
  - destruct (get_noised_result_ok (GaussianAverageQuery._numerator qa)
                sample_state global_state w) as (noised_sum & w' & Hq & _).
    eexists. exists w'. apply average_get_noised_result_eq. exact Hq.
Qed.

(** ** What accumulation depends on *)

(** C10.  [accumulate_record] and [accumulate_record_impl] do not read
    the query they are called on: two sum queries, whatever their clip
    norm, standard deviation and ledger, return the same on the same
    arguments, and the scale of the clipping is computed from the clip
    norm passed as [params].  So a query that stores the clip norm 100
    and is passed the clip norm 1 clips the record [[0; 4]] to [[0; 1]]
    (run in binary32). *)
Theorem accumulate_record_ignores_the_query :
  (forall (T : Type) (N : Numeric T) (q1 q2 : GaussianSumQuery.t)
          (params : T) (sample_state record : structure (tensor T))
          (w : world T),
      GaussianSumQuery.accumulate_record q1 params sample_state record w =
        GaussianSumQuery.accumulate_record q2 params sample_state record w /\
      GaussianSumQuery.accumulate_record_impl q1 params sample_state record w =
        GaussianSumQuery.accumulate_record_impl q2 params sample_state record
          w /\
      GaussianSumQuery.accumulate_record q1 params sample_state record w =
        nest.map_structure2 tf.add sample_state
          (smap (fun v => tf.mul_scalar v
                   (tf.clip_scale (tf.global_norm (nest.flatten record))
                      params))
             record) w) /\
  returned
    (GaussianSumQuery.accumulate_record
       (GaussianSumQuery.mk (of_Z 100 : binary32) (of_Z 0) None) (of_Z 1)
       (Leaf (vector [of_Z 0; of_Z 0])) (Leaf (vector [of_Z 0; of_Z 4]))
       quiet_world32) =
    Ok (Leaf (vector [of_Z 0; of_Z 1])).
Proof.
  split; [| vm_compute; reflexivity].
  intros T N q1 q2 params sample_state record w.
  split; [| split].
  - rewrite !accumulate_record_eq. reflexivity.
  - reflexivity.
  - apply accumulate_record_eq.
Qed.

(** ** The ledger *)

(** C6.  In a round (the initial sample state, then the records
    accumulated one by one, then the noised result) of a query built with
    a ledger, the ledger receives exactly one call, with the clip norm
    that [derive_sample_params] returns and the standard deviation of the
    query.  The call is made by [initial_sample_state], so the sample
    state that the accumulation starts from exists only after it; the
    accumulation and the noising make no call.  Without a ledger no call
    is made and [initial_sample_state] returns the same zeros. *)
Theorem ledger_receives_one_call_per_round :
  forall (T : Type) (N : Numeric T) (G : Type)
         (q : GaussianSumQuery.t) (global_state : option G)
         (tensors : structure (tensor T))
         (records : list (structure (tensor T))) (w : world T),
    let params := GaussianSumQuery.derive_sample_params q global_state in
    let recorded :=
      match GaussianSumQuery._ledger q with
      | Some l => [RecordSumQuery l params (GaussianSumQuery._stddev q)]
      | None => []
      end in
    let round :=
      sample_state <-
        GaussianSumQuery.initial_sample_state q global_state tensors ;;
      sample_state <-
        foldM (GaussianSumQuery.accumulate_record q params) sample_state
          records ;;
      GaussianSumQuery.get_noised_result q sample_state global_state in
    (exists w0,
        GaussianSumQuery.initial_sample_state q global_state tensors w =
          Ok (smap tf.zeros_like tensors, w0) /\
        ledger_calls w0 = ledger_calls w ++ recorded /\
        (GaussianSumQuery._ledger q = None -> w0 = w)) /\
    (forall p s r s' w1 w2,
        GaussianSumQuery.accumulate_record q p s r w1 = Ok (s', w2) ->
        w2 = w1) /\
    (forall s w1,
        exists estimate w2,
          GaussianSumQuery.get_noised_result q s global_state w1 =
            Ok ((estimate, global_state), w2) /\
          ledger_calls w2 = ledger_calls w1) /\
    (forall result w',
        round w = Ok (result, w') ->
        ledger_calls w' = ledger_calls w ++ recorded) /\
    (Forall (fun r => same_shapes r tensors) records ->
     exists result w',
       round w = Ok (result, w') /\
       ledger_calls w' = ledger_calls w ++ recorded).
Proof.
  intros T N G q global_state tensors records w params recorded round.
  assert (Hinit : exists w0,
             GaussianSumQuery.initial_sample_state q global_state tensors w =
               Ok (smap tf.zeros_like tensors, w0) /\
             ledger_calls w0 = ledger_calls w ++ recorded /\
             (GaussianSumQuery._ledger q = None -> w0 = w)).
  { eexists. split; [apply initial_sample_state_eq |].
    subst recorded params. unfold GaussianSumQuery.derive_sample_params.
    destruct (GaussianSumQuery._ledger q) as [l |]; cbn.
    - split; [reflexivity | discriminate].
    - split; [now rewrite app_nil_r | reflexivity]. }
  assert (Hnoise : forall s w1,
             exists estimate w2,
               GaussianSumQuery.get_noised_result q s global_state w1 =
                 Ok ((estimate, global_state), w2) /\
               ledger_calls w2 = ledger_calls w1).
  { intros s w1.
    destruct (get_noised_result_ok q s global_state w1)
      as (estimate & w2 & Hres & _ & Hcalls).
    now exists estimate, w2. }
  destruct Hinit as (w0 & Hw0 & Hcalls0 & Hnone).
  split; [exists w0; now repeat split |].
  split; [intros p s r s' w1 w2; apply accumulate_record_frame |].
  split; [exact Hnoise |].
  split.
  - intros result w'. subst round. unfold bind at 1. rewrite Hw0.
    unfold bind at 1.
    destruct (foldM _ _ records w0) as [[s w1] | e] eqn:Hfold;
      [| discriminate].
    apply foldM_accumulate_frame in Hfold as ->.
    destruct (Hnoise s w0) as (estimate & w2 & Hres & Hcalls2).
    rewrite Hres. intros [= <- <-]. congruence.
  - intros Hall. subst round. unfold bind at 1. rewrite Hw0.
    destruct (foldM_accumulate_ok q params (s0 := smap tf.zeros_like tensors)
                (records := records) w0) as (s & Hfold & _).
    { eapply Forall_impl; [| exact Hall]. cbn. intros r Hr.
      apply (same_shapes_trans Hr), same_shapes_sym, same_shapes_smap.
      reflexivity. }
    unfold bind at 1. rewrite Hfold.
    destruct (Hnoise s w0) as (estimate & w2 & Hres & Hcalls2).
    exists (estimate, global_state), w2. split; [exact Hres | congruence].
Qed.

(** C6 at a query with ledger 7, clip norm 1 and standard deviation 0,
    in a round of two records: the ledger has received one call when the
    round ends. *)
Lemma ledger_receives_one_call_per_round_witness :
  let q := GaussianSumQuery.mk (Fin 1) (Fin 0) (Some 7%nat) in
  let tensors := Leaf (vector [Fin 1; Fin 1]) in
  let records := [Leaf (vector [Fin 3; Fin 4]); Leaf (vector [Fin 0; Fin 12])] in
  exists result w',
    (sample_state <-
       GaussianSumQuery.initial_sample_state q (@None unit) tensors ;;
     sample_state <-
       foldM (GaussianSumQuery.accumulate_record q
                (GaussianSumQuery.derive_sample_params q (@None unit)))
         sample_state records ;;
     GaussianSumQuery.get_noised_result q sample_state (@None unit))
      quiet_world = Ok (result, w') /\
    ledger_calls w' = [RecordSumQuery 7%nat (Fin 1) (Fin 0)].
Proof.
  intros q tensors records.
  apply (proj2 (proj2 (proj2 (proj2
           (@ledger_receives_one_call_per_round xreal _ unit q None tensors
              records quiet_world))))).
  repeat constructor.
Defined.


(** ** Noise of standard deviation zero, in exact arithmetic *)

Section ZeroNoise.
Open Scope R_scope.

Lemma xadd_zero_noise (x : xreal) (z : R) :
  xadd x (xadd (xmul (Fin z) (Fin 0)) (Fin 0)) = x.
Proof.
  destruct x as [a | | |]; cbn; try reflexivity. f_equal. lra.
Qed.

Lemma zip_with_zero_noise (d zs : list xreal) :
  (length d <= length zs)%nat ->
  (forall z, In z zs -> exists r, z = Fin r) ->
  zip_with xadd d (map (fun z => xadd (xmul z (Fin 0)) (Fin 0)) zs) = d.
Proof.
  revert zs. induction d as [| x d IH]; intros [| z zs] Hlen Hfin;
    cbn in *; try reflexivity; try lia.
  destruct (Hfin z (or_introl eq_refl)) as [r ->].
  rewrite xadd_zero_noise, IH; [reflexivity | lia |].
  intros z' Hz'. apply Hfin. now right.
Qed.

(** With standard deviation 0 the noise added to a leaf is zero. *)
Lemma add_noise_zero_stddev (q : GaussianSumQuery.t) (v : tensor xreal)
  (w : world xreal) :
  GaussianSumQuery._stddev q = Fin 0 ->
  wf_tensor v ->
  finite_draws w ->
  exists w',
    GaussianSumQuery.add_noise q v w = Ok (v, w') /\
    ledger_calls w' = ledger_calls w /\
    standard_normal w' = standard_normal w.
Proof.
  intros Hstd Hwf Hfin.
  destruct (add_noise_eq q v w) as (noise & w' & Hadd & Hrnd & Hl & Hs).
  exists w'. split; [| now split].
  rewrite Hadd. do 2 f_equal.
  unfold tf.random_normal, tf.random_standard_normal, bind, ret in Hrnd.
  injection Hrnd as <- _.
  destruct v as [s d]. unfold tadd, wf_tensor in *. cbn [shape data] in *.
  f_equal. rewrite Hstd. cbn [nadd nmul of_Z xreal_Numeric].
  apply zip_with_zero_noise.
  - rewrite length_map, length_seq. lia.
  - intros z Hz. apply in_map_iff in Hz as (i & <- & _). apply Hfin.
Qed.

Lemma mapM_add_noise_zero_stddev (q : GaussianSumQuery.t)
  (vs : list (tensor xreal)) :
  GaussianSumQuery._stddev q = Fin 0 ->
  Forall wf_tensor vs ->
  forall w : world xreal,
    finite_draws w ->
    exists w',
      mapM (GaussianSumQuery.add_noise q) vs w = Ok (vs, w') /\
      ledger_calls w' = ledger_calls w.
Proof.
  intros Hstd Hwf. induction Hwf as [| v vs Hv _ IH]; intros w Hfin.
  - exists w. split; reflexivity.
  - destruct (add_noise_zero_stddev q Hstd Hv Hfin) as (w1 & Hadd & Hl1 & Hs1).
    destruct (IH w1) as (w2 & Hrest & Hl2).
    { intros i. rewrite Hs1. apply Hfin. }
    exists w2. cbn [mapM]. unfold bind at 1. rewrite Hadd.
    unfold bind at 1. rewrite Hrest. split; [reflexivity | congruence].
Qed.

Lemma get_noised_result_zero_stddev {G} (q : GaussianSumQuery.t)
  (sample_state : structure (tensor xreal)) (global_state : option G)
  (w : world xreal) :
  GaussianSumQuery._stddev q = Fin 0 ->
  Forall wf_tensor (nest.flatten sample_state) ->
  finite_draws w ->
  exists w',
    GaussianSumQuery.get_noised_result q sample_state global_state w =
      Ok ((sample_state, global_state), w') /\
    ledger_calls w' = ledger_calls w.
Proof.
  intros Hstd Hwf Hfin.
  destruct (mapM_add_noise_zero_stddev q Hstd Hwf Hfin) as (w' & Hmap & Hl).
  exists w'. split; [| exact Hl].
  unfold GaussianSumQuery.get_noised_result, nest.map_structure.
  unfold bind at 1 2. rewrite Hmap.
  rewrite <- (map_id (nest.flatten sample_state)) at 1.
  rewrite pack_sequence_as_map, smap_id. reflexivity.
Qed.

Lemma finite_draws_quiet_world : finite_draws quiet_world.
Proof. intros i. eexists. reflexivity. Qed.

End ZeroNoise.

(** ** Scalar records, in exact arithmetic *)

Section Scalars.
Open Scope R_scope.

Lemma l2_norm_scalar (x : R) : 0 <= x -> l2_norm (Leaf (scalar x)) = x.
Proof.
  intros Hx. unfold l2_norm, elements. cbn.
  rewrite Rplus_0_r. now apply sqrt_square.
Qed.

(** A scalar record of norm above the clip norm, added to a scalar. *)
Lemma accumulate_scalar_above (q : GaussianSumQuery.t) (c s x : R)
  (w : world xreal) :
  0 <= c -> c < x ->
  GaussianSumQuery.accumulate_record q (Fin c) (Leaf (scalar (Fin s)))
    (Leaf (scalar (Fin x))) w =
  Ok (Leaf (scalar (Fin (s + x * (c / x)))), w).
Proof.
  intros Hc Hx. rewrite accumulate_record_eq.
  change (Leaf (scalar (Fin x))) with (lift (Leaf (scalar x))).
  rewrite global_norm_lift, l2_norm_scalar by lra.
  rewrite clip_scale_above by lra.
  reflexivity.
Qed.

End Scalars.

(** ** The noised result *)

(** C4.  [GaussianAverageQuery.get_noised_result] returns the noised
    result of its sum query with every leaf divided by the denominator,
    and the global state the sum query returned.  With denominator 3.0, a
    sum query whose noised result is [6.0, 9.0] gives [2.0, 3.0], in exact
    arithmetic and in binary32. *)
Theorem average_result_is_normalized_sum :
  (forall (T : Type) (N : Numeric T) (G : Type)
          (q : GaussianAverageQuery.t) (sample_state : structure (tensor T))
          (global_state : option G) (w : world T),
      exists noised_sum new_global_state w',
        GaussianSumQuery.get_noised_result (GaussianAverageQuery._numerator q)
          sample_state global_state w =
          Ok ((noised_sum, new_global_state), w') /\
        GaussianAverageQuery.get_noised_result q sample_state global_state w =
          Ok ((smap (fun v => tf.truediv v (GaussianAverageQuery._denominator q))
                 noised_sum, new_global_state), w')) /\
  (let q := GaussianAverageQuery.mk
              (GaussianSumQuery.mk (Fin 1) (Fin 0) None) (Fin 3) in
   let sample_state := Leaf (vector [Fin 6; Fin 9]) in
   exists w',
     GaussianSumQuery.get_noised_result (GaussianAverageQuery._numerator q)
       sample_state (@None unit) quiet_world =
       Ok ((Leaf (vector [Fin 6; Fin 9]), None), w') /\
     GaussianAverageQuery.get_noised_result q sample_state (@None unit)
       quiet_world =
       Ok ((Leaf (vector [Fin 2; Fin 3]), None), w')) /\
  returned
    (GaussianAverageQuery.get_noised_result
       (GaussianAverageQuery.mk
          (GaussianSumQuery.mk (of_Z 1 : binary32) (of_Z 0) None) (of_Z 3))
       (Leaf (vector [of_Z 6; of_Z 9])) (@None unit) quiet_world32) =
    Ok (Leaf (vector [of_Z 2; of_Z 3]), None).
Proof.
  split; [| split; [| vm_compute; reflexivity]].
  - intros T N G q sample_state global_state w.
    destruct (get_noised_result_ok (GaussianAverageQuery._numerator q)
                sample_state global_state w) as (noised_sum & w' & Hsum & _).
    exists noised_sum, global_state, w'. split; [exact Hsum |].
    apply average_get_noised_result_eq. exact Hsum.
  - intros q sample_state.
    destruct (get_noised_result_zero_stddev
                (GaussianAverageQuery._numerator q) sample_state (@None unit)
                (w := quiet_world)) as (w' & Hsum & _).
    + reflexivity.
    + repeat constructor.
    + apply finite_draws_quiet_world.
    + exists w'. split; [exact Hsum |].
      rewrite (@average_get_noised_result_eq _ _ _ q _ _ _ _ _ _ Hsum).
      do 3 f_equal. cbn. unfold vector, tf.truediv, tmap. cbn.
      destruct (Req_dec_T 3 0) as [H30 | _]; [lra |].
      do 2 f_equal. f_equal; [f_equal; lra |]. f_equal. f_equal. lra.
Qed.

(** C5.  A sum query of standard deviation 0 returns the sample state it
    is given: the noise, a finite draw times 0 plus the mean 0, is zero on
    every element of every leaf.  With clip norm 1.0 and standard
    deviation 0.0, the scalar records 3.0 and 4.0, of norms 3 and 4, are
    each clipped to 1.0, and the round on a zero state returns 2.0; run in
    binary32 the round returns the float 2.0 as well. *)
Theorem zero_stddev_returns_the_sample_state :
  (forall (G : Type) (q : GaussianSumQuery.t)
          (sample_state : structure (tensor xreal)) (global_state : option G)
          (w : world xreal),
      GaussianSumQuery._stddev q = Fin 0 ->
      Forall wf_tensor (nest.flatten sample_state) ->
      finite_draws w ->
      exists w',
        GaussianSumQuery.get_noised_result q sample_state global_state w =
          Ok ((sample_state, global_state), w') /\
        ledger_calls w' = ledger_calls w) /\
  (forall (G : Type) (global_state : option G) (w : world xreal),
      finite_draws w ->
      exists q w',
        GaussianSumQuery.__init__ (PyFloat (Fin 1)) (PyFloat (Fin 0)) None =
          Ok q /\
        GaussianSumQuery.clipped (Fin 1) (Leaf (scalar (Fin 3))) w =
          Ok ((Leaf (scalar (Fin 1)), Fin 3), w) /\
        GaussianSumQuery.clipped (Fin 1) (Leaf (scalar (Fin 4))) w =
          Ok ((Leaf (scalar (Fin 1)), Fin 4), w) /\
        (let params := GaussianSumQuery.derive_sample_params q global_state in
         s0 <- GaussianSumQuery.initial_sample_state q global_state
                 (Leaf (scalar (Fin 3))) ;;
         s1 <- GaussianSumQuery.accumulate_record q params s0
                 (Leaf (scalar (Fin 3))) ;;
         s2 <- GaussianSumQuery.accumulate_record q params s1
                 (Leaf (scalar (Fin 4))) ;;
         GaussianSumQuery.get_noised_result q s2 global_state) w =
          Ok ((Leaf (scalar (Fin 2)), global_state), w')) /\
  (let q := GaussianSumQuery.mk (of_Z 1 : binary32) (of_Z 0) None in
   let params := GaussianSumQuery.derive_sample_params q (@None unit) in
   returned
     ((s0 <- GaussianSumQuery.initial_sample_state q (@None unit)
               (Leaf (scalar (of_Z 3))) ;;
       s1 <- GaussianSumQuery.accumulate_record q params s0
               (Leaf (scalar (of_Z 3))) ;;
       s2 <- GaussianSumQuery.accumulate_record q params s1
               (Leaf (scalar (of_Z 4))) ;;
       GaussianSumQuery.get_noised_result q s2 (@None unit)) quiet_world32) =
     Ok (Leaf (scalar (of_Z 2)), None)).
Proof.
  split; [| split; [| vm_compute; reflexivity]].
  - intros G q sample_state global_state w.
    apply get_noised_result_zero_stddev.
  - intros G global_state w Hfin.
    assert (Hclip : forall x : R,
               (1 < x)%R ->
               GaussianSumQuery.clipped (Fin 1) (Leaf (scalar (Fin x))) w =
                 Ok ((Leaf (scalar (Fin 1)), Fin x), w)).
    { intros x Hx. rewrite clipped_eq.
      change (Leaf (scalar (Fin x))) with (lift (Leaf (scalar x))).
      rewrite global_norm_lift, l2_norm_scalar by lra.
      rewrite clip_scale_above by lra.
      cbn. unfold scalar, tf.mul_scalar, tmap. cbn.
      repeat f_equal. field. lra. }
    set (q := GaussianSumQuery.mk (Fin 1) (Fin 0) None).
    destruct (get_noised_result_zero_stddev q (Leaf (scalar (Fin 2)))
                global_state (w := w)) as (w' & Hres & _);
      [reflexivity | repeat constructor | exact Hfin |].
    exists q, w'.
    split; [reflexivity |].
    split; [apply Hclip; lra |].
    split; [apply Hclip; lra |].
    cbn zeta. unfold bind at 1. rewrite initial_sample_state_eq.
    cbn [GaussianSumQuery._ledger q smap].
    change (tf.zeros_like (scalar (Fin 3))) with (scalar (Fin 0%R)).
    unfold GaussianSumQuery.derive_sample_params.
    cbn [GaussianSumQuery._l2_norm_clip q].
    unfold bind at 1.
    rewrite (accumulate_scalar_above q (c := 1) 0 (x := 3)) by lra.
    unfold bind at 1.
    rewrite (accumulate_scalar_above q (c := 1) _ (x := 4)) by lra.
    replace (0 + 3 * (1 / 3) + 4 * (1 / 4))%R with 2%R by lra.
    exact Hres.
Qed.

(** C5 at a sum query of standard deviation 0, the sample state
    [[1.5; -2]] and the round on the records 3.0 and 4.0. *)
Lemma zero_stddev_returns_the_sample_state_witness :
  (exists w',
      GaussianSumQuery.get_noised_result
        (GaussianSumQuery.mk (Fin 1) (Fin 0) (Some 7%nat))
        (Leaf (vector [Fin 1.5; Fin (-2)])) (@None unit) quiet_world =
        Ok ((Leaf (vector [Fin 1.5; Fin (-2)]), None), w') /\
      ledger_calls w' = ledger_calls quiet_world) /\
  (exists q w',
      GaussianSumQuery.__init__ (PyFloat (Fin 1)) (PyFloat (Fin 0)) None =
        Ok q /\
      GaussianSumQuery.clipped (Fin 1) (Leaf (scalar (Fin 3))) quiet_world =
        Ok ((Leaf (scalar (Fin 1)), Fin 3), quiet_world) /\
      GaussianSumQuery.clipped (Fin 1) (Leaf (scalar (Fin 4))) quiet_world =
        Ok ((Leaf (scalar (Fin 1)), Fin 4), quiet_world) /\
      (let params := GaussianSumQuery.derive_sample_params q (@None unit) in
       s0 <- GaussianSumQuery.initial_sample_state q (@None unit)
               (Leaf (scalar (Fin 3))) ;;
       s1 <- GaussianSumQuery.accumulate_record q params s0
               (Leaf (scalar (Fin 3))) ;;
       s2 <- GaussianSumQuery.accumulate_record q params s1
               (Leaf (scalar (Fin 4))) ;;
       GaussianSumQuery.get_noised_result q s2 (@None unit)) quiet_world =
        Ok ((Leaf (scalar (Fin 2)), None), w')).
Proof.
  split.
  - apply (proj1 zero_stddev_returns_the_sample_state).
    + reflexivity.
    + repeat constructor.
    + apply finite_draws_quiet_world.
  - apply (proj1 (proj2 zero_stddev_returns_the_sample_state)).
    apply finite_draws_quiet_world.
Defined.

(** ** Clipping *)

(** C1.  Let a record of real numbers have global L2 norm [n], the
    square root of the sum of the squares of all elements of all leaves
    (it is what [tf.global_norm] computes), and let the clip norm [c] be
    non-negative and below [n].  Then the clipped record is the record
    with every element multiplied by [c / n]: it has the nesting and the
    shapes of the record, its global norm is [c], and
    [accumulate_record] adds it, leaf by leaf, to the sample state. *)
Theorem accumulate_record_clips_above_the_clip_norm :
  forall (q : GaussianSumQuery.t) (c : R)
         (sample_state : structure (tensor xreal))
         (r : structure (tensor R)) (w : world xreal),
    (0 <= c)%R ->
    (c < l2_norm r)%R ->
    let record := lift r in
    let clipped := lift (rescale (c / l2_norm r) r) in
    tf.global_norm (nest.flatten record) = Fin (l2_norm r) /\
    GaussianSumQuery.clipped (Fin c) record w =
      Ok ((clipped, Fin (l2_norm r)), w) /\
    same_shapes clipped record /\
    tf.global_norm (nest.flatten clipped) = Fin c /\
    GaussianSumQuery.accumulate_record q (Fin c) sample_state record w =
      nest.map_structure2 tf.add sample_state clipped w /\
    (same_shapes record sample_state ->
     exists s,
       GaussianSumQuery.accumulate_record q (Fin c) sample_state record w =
         Ok (s, w) /\
       nest.flatten s =
         zip_with tadd (nest.flatten sample_state) (nest.flatten clipped) /\
       same_shapes s sample_state).
Proof.
  intros q c sample_state r w Hc Hn record clipped.
  assert (Hscale : smap (fun v => tf.mul_scalar v
                           (tf.clip_scale
                              (tf.global_norm (nest.flatten record)) (Fin c)))
                     record = clipped).
  { subst record clipped.
    rewrite global_norm_lift, clip_scale_above by assumption.
    apply mul_scalar_lift. }
  assert (Hshapes : same_shapes clipped record).
  { rewrite <- Hscale. apply mul_scalar_shapes. }
  split; [apply global_norm_lift |].
  split; [rewrite clipped_eq, Hscale; subst record;
          now rewrite global_norm_lift |].
  split; [exact Hshapes |].
  split.
  { subst clipped. rewrite global_norm_lift, l2_norm_rescale.
    - f_equal. field. lra.
    - apply Rmult_le_pos; [lra |].
      left. apply Rinv_0_lt_compat. lra. }
  split; [rewrite accumulate_record_eq, Hscale; reflexivity |].
  intros Hsh.
  destruct (accumulate_record_ok q (Fin c) w Hsh) as (s & Hacc & Hflat & Hs).
  exists s. split; [exact Hacc | split; [| exact Hs]].
  rewrite Hflat, <- flatten_smap, Hscale. reflexivity.
Qed.

(** C1 at the record [[3; 4]] of norm 5, clip norm 1 and the sample
    state [[10; 20]]. *)
Lemma accumulate_record_clips_above_the_clip_norm_witness :
  let r := Leaf (vector [3; 4]%R) in
  let sample_state := Leaf (vector [Fin 10; Fin 20]) in
  let q := GaussianSumQuery.mk (Fin 1) (Fin 0) None in
  l2_norm r = 5%R /\
  tf.global_norm (nest.flatten (lift (rescale (1 / l2_norm r) r))) = Fin 1 /\
  GaussianSumQuery.accumulate_record q (Fin 1) sample_state (lift r)
    quiet_world =
    nest.map_structure2 tf.add sample_state
      (lift (rescale (1 / l2_norm r) r)) quiet_world.
Proof.
  intros r sample_state q.
  assert (Hnorm : l2_norm r = 5%R).
  { unfold l2_norm, elements. cbn.
    replace (3 * 3 + (4 * 4 + 0))%R with (5 * 5)%R by lra.
    apply sqrt_square. lra. }
  split; [exact Hnorm |].
  assert (Hc : (0 <= 1)%R) by lra.
  assert (Hn : (1 < l2_norm r)%R) by (rewrite Hnorm; lra).
  destruct (accumulate_record_clips_above_the_clip_norm q sample_state r
              quiet_world Hc Hn) as (_ & _ & _ & Hclipped & Hacc & _).
  split; [exact Hclipped | exact Hacc].
Defined.

(** The scale at clip norm 0 and norm 0 is 0 times infinity. *)
Lemma accumulate_zero_record_zero_clip (q : GaussianSumQuery.t)
  (w : world xreal) :
  GaussianSumQuery.accumulate_record q (Fin 0) (Leaf (vector [Fin 0]))
    (Leaf (vector [Fin 0])) w =
  Ok (Leaf (vector [NaN]), w).
Proof.
  rewrite accumulate_record_eq.
  change (Leaf (vector [Fin 0%R])) with (lift (Leaf (vector [0%R]))).
  rewrite global_norm_lift.
  replace (l2_norm (Leaf (vector [0%R]))) with 0%R.
  - rewrite clip_scale_zero_zero. reflexivity.
  - unfold l2_norm, elements. cbn.
    replace (0 * 0 + 0)%R with 0%R by lra. symmetry. apply sqrt_0.
Qed.

(** C2 (as amended).  For a record of real numbers whose global L2 norm
    is at most the clip norm, the clip norm being positive,
    [accumulate_record] adds the record itself to the sample state: the
    clipped record is the record.  This covers the record of norm 0,
    for which [1.0 / norm] is a division by zero: it yields the positive
    infinity, the minimum discards it, and the scale is [c * (1/c)]. *)
Theorem accumulate_record_keeps_records_within_the_clip_norm :
  forall (q : GaussianSumQuery.t) (c : R)
         (sample_state : structure (tensor xreal))
         (r : structure (tensor R)) (w : world xreal),
    (0 < c)%R ->
    (l2_norm r <= c)%R ->
    (l2_norm r = 0%R ->
     ndiv (of_Z 1) (tf.global_norm (nest.flatten (lift r))) = PInf) /\
    tf.clip_scale (tf.global_norm (nest.flatten (lift r))) (Fin c) = Fin 1 /\
    GaussianSumQuery.clipped (Fin c) (lift r) w =
      Ok ((lift r, Fin (l2_norm r)), w) /\
    GaussianSumQuery.accumulate_record q (Fin c) sample_state (lift r) w =
      nest.map_structure2 tf.add sample_state (lift r) w.
Proof.
  intros q c sample_state r w Hc Hn.
  assert (Hscale : tf.clip_scale (tf.global_norm (nest.flatten (lift r)))
                     (Fin c) = Fin 1).
  { rewrite global_norm_lift.
    apply clip_scale_below; [assumption | apply l2_norm_nonneg | assumption]. }
  assert (Hsame : smap (fun v => tf.mul_scalar v (Fin 1)) (lift r) = lift r).
  { now rewrite mul_scalar_lift, rescale_one. }
  split.
  { intros H0. rewrite global_norm_lift, H0.
    cbn [ndiv of_Z xreal_Numeric xdiv].
    destruct (Req_dec_T 0 0); [| lra].
    destruct (Req_dec_T 1 0); [lra |].
    destruct (Rlt_dec 0 1); [reflexivity | lra]. }
  split; [exact Hscale |].
  split.
  - rewrite clipped_eq, Hscale, Hsame, global_norm_lift. reflexivity.
  - rewrite accumulate_record_eq, Hscale, Hsame. reflexivity.
Qed.

(** C2 (as amended) at the zero record [[0; 0]], of norm 0, and at the
    record [[3; 4]], of norm 5, with clip norm 5. *)
Lemma accumulate_record_keeps_records_within_the_clip_norm_witness :
  let q := GaussianSumQuery.mk (Fin 5) (Fin 0) None in
  let sample_state := Leaf (vector [Fin 10; Fin 20]) in
  GaussianSumQuery.accumulate_record q (Fin 5) sample_state
    (lift (Leaf (vector [0; 0]%R))) quiet_world =
    nest.map_structure2 tf.add sample_state (lift (Leaf (vector [0; 0]%R)))
      quiet_world /\
  GaussianSumQuery.accumulate_record q (Fin 5) sample_state
    (lift (Leaf (vector [3; 4]%R))) quiet_world =
    nest.map_structure2 tf.add sample_state (lift (Leaf (vector [3; 4]%R)))
      quiet_world.
Proof.
  intros q sample_state.
  assert (Hc : (0 < 5)%R) by lra.
  assert (H0 : (l2_norm (Leaf (vector [0; 0]%R)) <= 5)%R).
  { unfold l2_norm, elements. cbn.
    replace (0 * 0 + (0 * 0 + 0))%R with 0%R by lra. rewrite sqrt_0. lra. }
  assert (H5 : (l2_norm (Leaf (vector [3; 4]%R)) <= 5)%R).
  { unfold l2_norm, elements. cbn.
    replace (3 * 3 + (4 * 4 + 0))%R with (5 * 5)%R by lra.
    rewrite sqrt_square; lra. }
  split.
  - exact (proj2 (proj2 (proj2
             (accumulate_record_keeps_records_within_the_clip_norm
                q sample_state (Leaf (vector [0; 0]%R)) quiet_world Hc H0)))).
  - exact (proj2 (proj2 (proj2
             (accumulate_record_keeps_records_within_the_clip_norm
                q sample_state (Leaf (vector [3; 4]%R)) quiet_world Hc H5)))).
Defined.

(** C2, the claim as stated fails at clip norm 0: the record [[0]] has
    norm 0, which is at most the clip norm, yet accumulating it into the
    zero state [[0]] yields [[NaN]], not the sum [[0]] of the state and
    the unscaled record; the scale is 0 times the infinite 1/0.  The same
    run in binary32 yields NaN too. *)
Lemma zero_record_at_zero_clip_norm_is_not_kept :
  let q := GaussianSumQuery.mk (Fin 0) (Fin 0) None in
  let record := lift (Leaf (vector [0%R])) in
  let sample_state := Leaf (vector [Fin 0]) in
  (l2_norm (Leaf (vector [0%R])) <= 0)%R /\
  tf.global_norm (nest.flatten record) = Fin 0 /\
  nest.map_structure2 tf.add sample_state record quiet_world =
    Ok (Leaf (vector [Fin (0 + 0)]), quiet_world) /\
  GaussianSumQuery.accumulate_record q (Fin 0) sample_state record
    quiet_world = Ok (Leaf (vector [NaN]), quiet_world) /\
  GaussianSumQuery.accumulate_record q (Fin 0) sample_state record
    quiet_world <>
    nest.map_structure2 tf.add sample_state record quiet_world /\
  returned
    (GaussianSumQuery.accumulate_record
       (GaussianSumQuery.mk (of_Z 0 : binary32) (of_Z 0) None) (of_Z 0)
       (Leaf (vector [of_Z 0])) (Leaf (vector [of_Z 0])) quiet_world32) =
    Ok (Leaf (vector [S754_nan])).
Proof.
  intros q record sample_state.
  assert (Hnorm : l2_norm (Leaf (vector [0%R])) = 0%R).
  { unfold l2_norm, elements. cbn.
    replace (0 * 0 + 0)%R with 0%R by lra. apply sqrt_0. }
  assert (Hacc : GaussianSumQuery.accumulate_record q (Fin 0) sample_state
                   record quiet_world = Ok (Leaf (vector [NaN]), quiet_world)).
  { apply accumulate_zero_record_zero_clip. }
  split; [rewrite Hnorm; lra |].
  split; [subst record; now rewrite global_norm_lift, Hnorm |].
  split; [reflexivity |].
  split; [exact Hacc |].
  split; [rewrite Hacc; discriminate | vm_compute; reflexivity].
Qed.

(** ** Order of accumulation *)

Lemma xadd_comm (x y : xreal) : xadd x y = xadd y x.
Proof.
  destruct x, y; cbn; try reflexivity. f_equal. apply Rplus_comm.
Qed.

Lemma xadd_assoc (x y z : xreal) : xadd (xadd x y) z = xadd x (xadd y z).
Proof.
  destruct x, y, z; cbn; try reflexivity. f_equal. apply Rplus_assoc.
Qed.

Lemma xadd_swap (x a b : xreal) : xadd (xadd x a) b = xadd (xadd x b) a.
Proof.
  now rewrite !xadd_assoc, (xadd_comm a b).
Qed.

Lemma zip_with_swap {A B} (f : A -> B -> A) :
  (forall x a b, f (f x a) b = f (f x b) a) ->
  forall (xs : list A) (az bz : list B),
    zip_with f (zip_with f xs az) bz = zip_with f (zip_with f xs bz) az.
Proof.
  intros Hf xs. induction xs as [| x xs IH]; intros [| a az] [| b bz];
    cbn; try reflexivity.
  now rewrite Hf, IH.
Qed.

Lemma tadd_swap (x a b : tensor xreal) :
  tadd (tadd x a) b = tadd (tadd x b) a.
Proof.
  unfold tadd. cbn [shape data]. f_equal.
  apply zip_with_swap, xadd_swap.
Qed.

(** C7.  Let the records [a] and [b] have the nesting and the shapes of
    the template.  Accumulating [a] then [b], and [b] then [a], into the
    initial sample state of the template both succeed and give the same
    sample state, for every clip norm and for each query, whatever the
    elements of the records are. *)
Theorem accumulation_is_order_independent :
  forall (G : Type) (q : GaussianSumQuery.t) (global_state : option G)
         (params : xreal) (tensors a b : structure (tensor xreal))
         (w : world xreal),
    same_shapes a tensors ->
    same_shapes b tensors ->
    exists zeros w0 sum,
      GaussianSumQuery.initial_sample_state q global_state tensors w =
        Ok (zeros, w0) /\
      foldM (GaussianSumQuery.accumulate_record q params) zeros [a; b] w0 =
        Ok (sum, w0) /\
      foldM (GaussianSumQuery.accumulate_record q params) zeros [b; a] w0 =
        Ok (sum, w0).
Proof.
  intros G q global_state params tensors a b w Ha Hb.
  pose proof (initial_sample_state_eq q global_state tensors w) as Hinit.
  revert Hinit.
  generalize (match GaussianSumQuery._ledger q with
              | Some l =>
                  log_call (RecordSumQuery l (GaussianSumQuery._l2_norm_clip q)
                              (GaussianSumQuery._stddev q)) w
              | None => w
              end).
  intros w0 Hinit.
  set (zeros := smap tf.zeros_like tensors).
  assert (Hz : same_shapes zeros tensors).
  { apply same_shapes_smap. reflexivity. }
  assert (Haz : same_shapes a zeros)
    by exact (same_shapes_trans Ha (same_shapes_sym Hz)).
  assert (Hbz : same_shapes b zeros)
    by exact (same_shapes_trans Hb (same_shapes_sym Hz)).
  destruct (accumulate_record_ok q params w0 Haz) as (sa & Hsa & Hfa & Hsha).
  destruct (accumulate_record_ok q params w0 Hbz) as (sb & Hsb & Hfb & Hshb).
  destruct (accumulate_record_ok q params w0
              (same_shapes_trans Hbz (same_shapes_sym Hsha)))
    as (sab & Hsab & Hfab & Hshab).
  destruct (accumulate_record_ok q params w0
              (same_shapes_trans Haz (same_shapes_sym Hshb)))
    as (sba & Hsba & Hfba & Hshba).
  assert (Hsame : sab = sba).
  { apply structure_eq.
    - destruct Hshab as [H1 _], Hsha as [H2 _], Hshba as [H3 _],
        Hshb as [H4 _].
      apply (same_structure_trans sab sa sba H1).
      apply (same_structure_trans sa zeros sba H2).
      apply same_structure_sym.
      exact (same_structure_trans sba sb zeros H3 H4).
    - rewrite Hfab, Hfba, Hfa, Hfb. apply zip_with_swap, tadd_swap. }
  exists zeros, w0, sab. split; [exact Hinit |].
  cbn [foldM]. unfold bind, ret.
  rewrite Hsa, Hsab, Hsb, Hsba, Hsame. split; reflexivity.
Qed.

(** C7 at the records [[3; 4]] and [[0; 12]], clip norm 1 and a template
    of shape (2,). *)
Lemma accumulation_is_order_independent_witness :
  let q := GaussianSumQuery.mk (Fin 1) (Fin 0) (Some 7%nat) in
  let a := Leaf (vector [Fin 3; Fin 4]) in
  let b := Leaf (vector [Fin 0; Fin 12]) in
  let tensors := Leaf (vector [Fin 1; Fin 1]) in
  exists zeros w0 sum,
    GaussianSumQuery.initial_sample_state q (@None unit) tensors quiet_world =
      Ok (zeros, w0) /\
    foldM (GaussianSumQuery.accumulate_record q (Fin 1)) zeros [a; b] w0 =
      Ok (sum, w0) /\
    foldM (GaussianSumQuery.accumulate_record q (Fin 1)) zeros [b; a] w0 =
      Ok (sum, w0).
Proof.
  intros q a b tensors.
  apply (accumulation_is_order_independent q (@None unit) (Fin 1)
           (tensors := tensors) (a := a) (b := b) quiet_world).
  - split; reflexivity.
  - split; reflexivity.
Defined.

(** * Further properties of the queries *)

(** ** Lists *)

Lemma zip_with_app {A B C} (f : A -> B -> C) (xs1 xs2 : list A)
  (ys1 ys2 : list B) :
  length xs1 = length ys1 ->
  zip_with f (xs1 ++ xs2) (ys1 ++ ys2) =
  zip_with f xs1 ys1 ++ zip_with f xs2 ys2.
Proof.
  revert ys1. induction xs1 as [| x xs1 IH]; intros [| y ys1] Hlen;
    try discriminate; [reflexivity |].
  cbn in *. injection Hlen as Hlen. now rewrite IH.
Qed.

Lemma zip_with_length {A B C} (f : A -> B -> C) (xs : list A) (ys : list B) :
  length xs = length ys -> length (zip_with f xs ys) = length xs.
Proof.
  revert ys. induction xs as [| x xs IH]; intros [| y ys] Hlen;
    try discriminate; [reflexivity |].
  cbn in *. injection Hlen as Hlen. now rewrite IH.
Qed.

Lemma same_structure_smap_r {A B C} (f : B -> C) (s1 : structure A) :
  forall s2 : structure B,
    nest.same_structure s1 (smap f s2) = nest.same_structure s1 s2.
Proof.
  induction s1 as [a | xs IH] using structure_ind; intros [b | ys];
    try reflexivity.
  cbn [smap nest.same_structure].
  revert ys. induction IH as [| x l Hx _ IHl]; intros [| y ys];
    try reflexivity.
  cbn [map]. now rewrite Hx, IHl.
Qed.

(** ** Errors of accumulation *)

(** X2.  When the record's nesting differs from the sample state's,
    [accumulate_record] and [accumulate_record_impl] of the sum query and
    [accumulate_record] of the average query raise [ValueError]: the
    comparison of [nest.map_structure] fails before any leaf is added. *)
Theorem accumulate_record_rejects_other_nesting :
  forall (T : Type) (N : Numeric T) (q : GaussianSumQuery.t)
         (qa : GaussianAverageQuery.t) (params : T)
         (sample_state record : structure (tensor T)) (w : world T),
    nest.same_structure sample_state record = false ->
    GaussianSumQuery.accumulate_record q params sample_state record w =
      Raise ValueError /\
    GaussianSumQuery.accumulate_record_impl q params sample_state record w =
      Raise ValueError /\
    GaussianAverageQuery.accumulate_record qa params sample_state record w =
      Raise ValueError.
Proof.
  intros T N q qa params sample_state record w Hs.
  assert (Hraise : forall q0 : GaussianSumQuery.t,
             GaussianSumQuery.accumulate_record_impl q0 params sample_state
               record w = Raise ValueError).
  { intros q0. unfold GaussianSumQuery.accumulate_record_impl.
    unfold bind at 1. rewrite clipped_eq. unfold bind.
    unfold nest.map_structure2. now rewrite same_structure_smap_r, Hs. }
  split; [| split].
  - unfold GaussianSumQuery.accumulate_record, bind. now rewrite Hraise.
  - apply Hraise.
  - unfold GaussianAverageQuery.accumulate_record,
      GaussianSumQuery.accumulate_record, bind.
    now rewrite Hraise.
Qed.

(** X2 at a sample state that is one tensor and a record that is a list
    of one tensor, in binary32. *)
Lemma accumulate_record_rejects_other_nesting_witness :
  GaussianSumQuery.accumulate_record
    (GaussianSumQuery.mk (of_Z 1 : binary32) (of_Z 0) None) (of_Z 1)
    (Leaf (vector [of_Z 0; of_Z 0]))
    (Seq [Leaf (vector [of_Z 3; of_Z 4])]) quiet_world32 =
    Raise ValueError.
Proof.
  apply (@accumulate_record_rejects_other_nesting binary32 _
           (GaussianSumQuery.mk (of_Z 1) (of_Z 0) None)
           (GaussianAverageQuery.mk
              (GaussianSumQuery.mk (of_Z 1) (of_Z 0) None) (of_Z 1))).
  reflexivity.
Defined.

(** ** The norm returned by [accumulate_record_impl] *)

(** X1.  [accumulate_record_impl] returns what [accumulate_record]
    returns, paired with the global norm of the record as it was passed:
    the norm before clipping, whatever the clip norm and the sample state
    are.  In exact arithmetic that norm is the joint L2 norm of the
    record, also for a record that is clipped to a smaller norm. *)
Theorem accumulate_record_impl_returns_the_norm_before_clipping :
  (forall (T : Type) (N : Numeric T) (q : GaussianSumQuery.t) (params : T)
          (sample_state record : structure (tensor T)) (w : world T),
      GaussianSumQuery.accumulate_record_impl q params sample_state record w =
        match
          GaussianSumQuery.accumulate_record q params sample_state record w
        with
        | Ok (s, w') => Ok ((s, tf.global_norm (nest.flatten record)), w')
        | Raise e => Raise e
        end) /\
  (forall (q : GaussianSumQuery.t) (params : xreal)
          (sample_state s : structure (tensor xreal))
          (r : structure (tensor R)) (norm : xreal) (w w' : world xreal),
      GaussianSumQuery.accumulate_record_impl q params sample_state (lift r)
        w = Ok ((s, norm), w') ->
      norm = Fin (l2_norm r)).
Proof.
  split.
  - intros T N q params sample_state record w.
    rewrite accumulate_record_eq.
    unfold GaussianSumQuery.accumulate_record_impl.
    unfold bind at 1. rewrite clipped_eq. unfold bind.
    destruct (nest.map_structure2 _ _ _ w) as [[s w'] | e]; reflexivity.
  - intros q params sample_state s r norm w w'.
    unfold GaussianSumQuery.accumulate_record_impl.
    unfold bind at 1. rewrite clipped_eq. unfold bind.
    destruct (nest.map_structure2 _ _ _ w) as [[s1 w1] | e];
      [| discriminate].
    unfold ret. intros [= _ <- _]. apply global_norm_lift.
Qed.

(** X1 at the record [[3; 4]], of norm 5, clipped to norm 1. *)
Lemma accumulate_record_impl_returns_the_norm_before_clipping_witness :
  exists s w',
    GaussianSumQuery.accumulate_record_impl
      (GaussianSumQuery.mk (Fin 1) (Fin 0) None) (Fin 1)
      (Leaf (vector [Fin 0; Fin 0])) (lift (Leaf (vector [3; 4]%R)))
      quiet_world = Ok ((s, Fin (l2_norm (Leaf (vector [3; 4]%R)))), w').
Proof.
  destruct (accumulate_record_ok (GaussianSumQuery.mk (Fin 1) (Fin 0) None)
              (Fin 1) (sample_state := Leaf (vector [Fin 0; Fin 0]))
              (record := lift (Leaf (vector [3; 4]%R))) quiet_world)
    as (s & Hacc & _); [split; reflexivity |].
  pose proof (proj1 accumulate_record_impl_returns_the_norm_before_clipping
                xreal _ (GaussianSumQuery.mk (Fin 1) (Fin 0) None) (Fin 1)
                (Leaf (vector [Fin 0; Fin 0])) (lift (Leaf (vector [3; 4]%R)))
                quiet_world) as Himpl.
  rewrite Hacc in Himpl.
  exists s, quiet_world. rewrite Himpl.
  rewrite (proj2 accumulate_record_impl_returns_the_norm_before_clipping
             _ _ _ _ _ _ _ _ Himpl).
  reflexivity.
Defined.

(** ** The average query's round *)

(** X3.  A round of the average query (initial sample state, the records
    accumulated in order, the noised result) does what the round of its
    sum query does, ledger call and random draws included, and returns
    that round's result with every leaf divided by the denominator; it
    raises when and what the sum query's round raises. *)
Theorem average_round_is_normalized_sum_round :
  forall (T : Type) (N : Numeric T) (G : Type)
         (qa : GaussianAverageQuery.t) (global_state : option G)
         (tensors : structure (tensor T))
         (records : list (structure (tensor T))) (w : world T),
    (s0 <- GaussianAverageQuery.initial_sample_state qa global_state
             tensors ;;
     s <- foldM (GaussianAverageQuery.accumulate_record qa
                   (GaussianAverageQuery.derive_sample_params qa global_state))
            s0 records ;;
     GaussianAverageQuery.get_noised_result qa s global_state) w =
    match
      (let q := GaussianAverageQuery._numerator qa in
       s0 <- GaussianSumQuery.initial_sample_state q global_state tensors ;;
       s <- foldM (GaussianSumQuery.accumulate_record q
                     (GaussianSumQuery.derive_sample_params q global_state))
              s0 records ;;
       GaussianSumQuery.get_noised_result q s global_state) w
    with
    | Ok ((noised_sum, new_global_state), w') =>
        Ok ((smap (fun v => tf.truediv v (GaussianAverageQuery._denominator qa))
               noised_sum, new_global_state), w')
    | Raise e => Raise e
    end.
Proof.
  intros T N G qa global_state tensors records w. cbn zeta.
  unfold GaussianAverageQuery.initial_sample_state,
    GaussianAverageQuery.derive_sample_params.
  change (GaussianAverageQuery.accumulate_record qa)
    with (GaussianSumQuery.accumulate_record
            (GaussianAverageQuery._numerator qa)).
  unfold bind at 1 3.
  destruct (GaussianSumQuery.initial_sample_state _ global_state tensors w)
    as [[s0 w0] | e]; [| reflexivity].
  unfold bind at 1 2.
  destruct (foldM _ s0 records w0) as [[s w1] | e]; [| reflexivity].
  destruct (get_noised_result_ok (GaussianAverageQuery._numerator qa) s
              global_state w1) as (estimate & w2 & Hsum & _).
  rewrite Hsum. apply average_get_noised_result_eq. exact Hsum.
Qed.

(** ** Shapes through a round *)

Lemma mapM_add_noise_shapes {T} `{Numeric T} (q : GaussianSumQuery.t)
  (vs : list (tensor T)) :
  forall (w w' : world T) (ys : list (tensor T)),
    mapM (GaussianSumQuery.add_noise q) vs w = Ok (ys, w') ->
    map (@shape T) ys = map (@shape T) vs.
Proof.
  induction vs as [| v vs IH]; intros w w' ys; cbn [mapM].
  - unfold ret. intros [= <- _]. reflexivity.
  - unfold bind at 1.
    destruct (add_noise_eq q v w) as (noise & w1 & Hv & _).
    rewrite Hv. unfold bind at 1.
    destruct (mapM _ vs w1) as [[ys' w2] | e] eqn:Hrest; [| discriminate].
    unfold ret. intros [= <- _]. cbn. f_equal. exact (IH _ _ _ Hrest).
Qed.

Lemma get_noised_result_shapes {T} `{Numeric T} {G}
  (q : GaussianSumQuery.t) (sample_state estimate : structure (tensor T))
  (global_state new_global_state : option G) (w w' : world T) :
  GaussianSumQuery.get_noised_result q sample_state global_state w =
    Ok ((estimate, new_global_state), w') ->
  same_shapes estimate sample_state.
Proof.
  unfold GaussianSumQuery.get_noised_result, nest.map_structure.
  unfold bind at 1 2.
  destruct (mapM _ (nest.flatten sample_state) w) as [[ys w1] | e] eqn:Hys;
    [| discriminate].
  pose proof Hys as Hshapes. apply mapM_add_noise_shapes in Hshapes.
  destruct (pack_sequence_as_ok sample_state ys w1) as (p & Hp & Hfp & Hsp).
  { apply (f_equal (@length _)) in Hshapes. now rewrite !length_map in Hshapes. }
  rewrite Hp. unfold ret. intros [= <- _ _].
  split; [now apply same_structure_sym | now rewrite Hfp].
Qed.

(** X4.  The nesting and the shapes of the template are kept through a
    round of the average query whose records have them: the round
    returns, and its estimate has the nesting of the template and a leaf
    of the template's shape in each place. *)
Theorem average_round_keeps_the_shapes :
  forall (T : Type) (N : Numeric T) (G : Type)
         (qa : GaussianAverageQuery.t) (global_state : option G)
         (tensors : structure (tensor T))
         (records : list (structure (tensor T))) (w : world T),
    Forall (fun r => same_shapes r tensors) records ->
    exists estimate w',
      (s0 <- GaussianAverageQuery.initial_sample_state qa global_state
               tensors ;;
       s <- foldM (GaussianAverageQuery.accumulate_record qa
                     (GaussianAverageQuery.derive_sample_params qa
                        global_state))
              s0 records ;;
       GaussianAverageQuery.get_noised_result qa s global_state) w =
        Ok ((estimate, global_state), w') /\
      same_shapes estimate tensors.
Proof.
  intros T N G qa global_state tensors records w Hall.
  unfold GaussianAverageQuery.initial_sample_state,
    GaussianAverageQuery.derive_sample_params.
  change (GaussianAverageQuery.accumulate_record qa)
    with (GaussianSumQuery.accumulate_record
            (GaussianAverageQuery._numerator qa)).
  set (q := GaussianAverageQuery._numerator qa).
  unfold bind at 1. rewrite initial_sample_state_eq.
  set (w1 := match GaussianSumQuery._ledger q with
             | Some l => log_call _ w
             | None => w
             end).
  assert (Hz : same_shapes (smap tf.zeros_like tensors) tensors).
  { apply same_shapes_smap. reflexivity. }
  destruct (foldM_accumulate_ok q
              (GaussianSumQuery.derive_sample_params q global_state)
              (s0 := smap tf.zeros_like tensors) (records := records) w1)
    as (s & Hfold & Hs).
  { eapply Forall_impl; [| exact Hall]. cbn. intros r Hr.
    exact (same_shapes_trans Hr (same_shapes_sym Hz)). }
  unfold bind at 1. rewrite Hfold.
  destruct (get_noised_result_ok q s global_state w1)
    as (noised & w2 & Hsum & _).
  pose proof Hsum as Hnoised. apply get_noised_result_shapes in Hnoised.
  exists (smap (fun v => tf.truediv v (GaussianAverageQuery._denominator qa))
            noised), w2.
  split.
  - apply average_get_noised_result_eq. exact Hsum.
  - apply (same_shapes_trans (s2 := noised)).
    + apply same_shapes_smap. reflexivity.
    + exact (same_shapes_trans Hnoised (same_shapes_trans Hs Hz)).
Qed.

(** X4 at an average query with a ledger, a nested template and two
    records, in binary32. *)
Lemma average_round_keeps_the_shapes_witness :
  let qa := GaussianAverageQuery.mk
              (GaussianSumQuery.mk (of_Z 1 : binary32) (of_Z 2) (Some 7%nat))
              (of_Z 2) in
  let tensors := Seq [Leaf (vector [of_Z 0; of_Z 0]); Leaf (scalar (of_Z 0))] in
  let records :=
    [Seq [Leaf (vector [of_Z 3; of_Z 4]); Leaf (scalar (of_Z 12))];
     Seq [Leaf (vector [of_Z 1; of_Z 0]); Leaf (scalar (of_Z 0))]] in
  exists estimate w',
    (s0 <- GaussianAverageQuery.initial_sample_state qa (@None unit)
             tensors ;;
     s <- foldM (GaussianAverageQuery.accumulate_record qa
                   (GaussianAverageQuery.derive_sample_params qa (@None unit)))
            s0 records ;;
     GaussianAverageQuery.get_noised_result qa s (@None unit)) quiet_world32 =
      Ok ((estimate, None), w') /\
    same_shapes estimate tensors.
Proof.
  intros qa tensors records.
  apply (@average_round_keeps_the_shapes binary32 _ unit qa None tensors
           records quiet_world32).
  repeat constructor.
Defined.

(** ** The draws of the noise *)

Section Draws.
Context {T : Type} `{Numeric T}.

Lemma add_noise_data (q : GaussianSumQuery.t) (v : tensor T) (w : world T) :
  wf_tensor v ->
  exists y w',
    GaussianSumQuery.add_noise q v w = Ok (y, w') /\
    data y =
      zip_with nadd (data v)
        (map (noise_of (GaussianSumQuery._stddev q))
           (map (standard_normal w) (seq (draws_used w) (length (data v))))) /\
    draws_used w' = draws_used w + length (data v) /\
    standard_normal w' = standard_normal w /\
    ledger_calls w' = ledger_calls w.
Proof.
  intros Hwf.
  destruct (add_noise_eq q v w) as (noise & w' & Hadd & Hrnd & Hl & Hs).
  exists (tadd v noise), w'.
  unfold tf.random_normal, tf.random_standard_normal, bind, ret in Hrnd.
  injection Hrnd as <- <-. unfold wf_tensor in Hwf. rewrite Hwf.
  repeat split; assumption.
Qed.

Lemma mapM_add_noise_data (q : GaussianSumQuery.t) (vs : list (tensor T)) :
  Forall wf_tensor vs ->
  forall w : world T,
  exists ys w',
    mapM (GaussianSumQuery.add_noise q) vs w = Ok (ys, w') /\
    flat_map (@data T) ys =
      zip_with nadd (flat_map (@data T) vs)
        (map (noise_of (GaussianSumQuery._stddev q))
           (map (standard_normal w)
              (seq (draws_used w) (length (flat_map (@data T) vs))))) /\
    draws_used w' = draws_used w + length (flat_map (@data T) vs) /\
    standard_normal w' = standard_normal w /\
    ledger_calls w' = ledger_calls w.
Proof.
  intros Hwf. induction Hwf as [| v vs Hv _ IH]; intros w.
  - exists [], w. cbn. repeat split. lia.
  - destruct (add_noise_data q w Hv) as (y & w1 & Hy & Hdata & Hd1 & Hs1 & Hl1).
    destruct (IH w1) as (ys & w2 & Hys & Hrest & Hd2 & Hs2 & Hl2).
    exists (y :: ys), w2. cbn [mapM]. unfold bind at 1. rewrite Hy.
    unfold bind at 1. rewrite Hys. unfold ret.
    split; [reflexivity |].
    split; [| repeat split; try congruence;
              cbn [flat_map]; rewrite length_app; lia].
    cbn [flat_map]. rewrite Hdata, Hrest, Hs1, Hd1.
    rewrite length_app, seq_app, !map_app.
    symmetry. apply zip_with_app. now rewrite !length_map, length_seq.
Qed.

End Draws.

(** X5.  [get_noised_result] of the sum query gives every element of
    every leaf a draw of its own: on a sample state whose leaves hold as
    many elements as their shapes say, it consumes as many standard
    normal draws as the sample state has elements, in the order of the
    flattened structure, and adds to the i-th element the i-th of these
    draws times the standard deviation (plus the mean 0).  The generator
    moves on by that many draws, so the next call draws fresh ones, and
    no ledger is called. *)
Theorem get_noised_result_draws_one_normal_per_element :
  forall (T : Type) (N : Numeric T) (G : Type) (q : GaussianSumQuery.t)
         (sample_state : structure (tensor T)) (global_state : option G)
         (w : world T),
    Forall wf_tensor (nest.flatten sample_state) ->
    exists estimate w',
      GaussianSumQuery.get_noised_result q sample_state global_state w =
        Ok ((estimate, global_state), w') /\
      same_shapes estimate sample_state /\
      all_data estimate =
        zip_with nadd (all_data sample_state)
          (map (noise_of (GaussianSumQuery._stddev q))
             (map (standard_normal w)
                (seq (draws_used w) (length (all_data sample_state))))) /\
      draws_used w' = draws_used w + length (all_data sample_state) /\
      standard_normal w' = standard_normal w /\
      ledger_calls w' = ledger_calls w.
Proof.
  intros T N G q sample_state global_state w Hwf.
  destruct (mapM_add_noise_data q Hwf w)
    as (ys & w' & Hys & Hdata & Hdraws & Hstd & Hcalls).
  destruct (pack_sequence_as_ok sample_state ys w') as (p & Hp & Hfp & Hsp).
  { pose proof Hys as Hshapes. apply mapM_add_noise_shapes in Hshapes.
    apply (f_equal (@length _)) in Hshapes.
    now rewrite !length_map in Hshapes. }
  assert (Hres : GaussianSumQuery.get_noised_result q sample_state
                   global_state w = Ok ((p, global_state), w')).
  { unfold GaussianSumQuery.get_noised_result, nest.map_structure.
    unfold bind at 1 2. now rewrite Hys, Hp. }
  exists p, w'. split; [exact Hres |].
  split; [now apply get_noised_result_shapes in Hres |].
  unfold all_data. rewrite Hfp. now repeat split.
Qed.

(** X5 at the sample state [[6; 9]; 1] and standard deviation 2 in
    binary32, where the draws 0, -1 and 2 give [[6; 7]; 5]. *)
Lemma get_noised_result_draws_one_normal_per_element_witness :
  let q := GaussianSumQuery.mk (of_Z 1 : binary32) (of_Z 2) None in
  let sample_state :=
    Seq [Leaf (vector [of_Z 6; of_Z 9]); Leaf (scalar (of_Z 1))] in
  exists estimate w',
    GaussianSumQuery.get_noised_result q sample_state (@None unit)
      quiet_world32 = Ok ((estimate, None), w') /\
    all_data estimate = [of_Z 6; of_Z 7; of_Z 5] /\
    draws_used w' = 3%nat.
Proof.
  intros q sample_state.
  destruct (@get_noised_result_draws_one_normal_per_element binary32 _ unit
              q sample_state None quiet_world32)
    as (estimate & w' & Hres & _ & Hdata & Hdraws & _).
  { repeat constructor. }
  exists estimate, w'. split; [exact Hres |].
  split; [rewrite Hdata; vm_compute; reflexivity | exact Hdraws].
Defined.

(** ** Clipping on real records *)

Section RealClipping.
Open Scope R_scope.

Lemma clip_factor_range (c : R) (r : structure (tensor R)) :
  0 < c -> 0 <= clip_factor c r <= 1.
Proof.
  intros Hc. unfold clip_factor.
  destruct (Rle_dec (l2_norm r) c) as [Hle | Hgt]; [lra |].
  assert (Hn : c < l2_norm r) by lra.
  split.
  - apply Rmult_le_pos; [lra |]. left. apply Rinv_0_lt_compat. lra.
  - apply (Rmult_le_reg_r (l2_norm r)); [lra |].
    unfold Rdiv. rewrite Rmult_assoc, Rinv_l by lra. lra.
Qed.

Lemma clip_scale_real (c : R) (r : structure (tensor R)) :
  0 < c ->
  tf.clip_scale (tf.global_norm (nest.flatten (lift r))) (Fin c) =
  Fin (clip_factor c r).
Proof.
  intros Hc. rewrite global_norm_lift. unfold clip_factor.
  destruct (Rle_dec (l2_norm r) c) as [Hle | Hgt].
  - apply clip_scale_below; [assumption | apply l2_norm_nonneg | assumption].
  - apply clip_scale_above; lra.
Qed.

Lemma clipped_lift (c : R) (r : structure (tensor R)) (w : world xreal) :
  0 < c ->
  GaussianSumQuery.clipped (Fin c) (lift r) w =
  Ok ((lift (clip c r), Fin (l2_norm r)), w).
Proof.
  intros Hc. rewrite clipped_eq, clip_scale_real, mul_scalar_lift by assumption.
  now rewrite global_norm_lift.
Qed.

Lemma l2_norm_clip (c : R) (r : structure (tensor R)) :
  0 < c -> l2_norm (clip c r) = Rmin (l2_norm r) c.
Proof.
  intros Hc. unfold clip.
  rewrite l2_norm_rescale by apply (clip_factor_range r Hc).
  unfold clip_factor.
  destruct (Rle_dec (l2_norm r) c) as [Hle | Hgt].
  - rewrite Rmin_left by assumption. lra.
  - rewrite Rmin_right by lra. field. lra.
Qed.

Lemma clip_within (c : R) (r : structure (tensor R)) :
  l2_norm r <= c -> clip c r = r.
Proof.
  intros Hle. unfold clip, clip_factor.
  destruct (Rle_dec (l2_norm r) c); [apply rescale_one | contradiction].
Qed.

Lemma clip_shapes (c : R) (r : structure (tensor R)) :
  same_shapes (clip c r) r.
Proof. apply same_shapes_smap. reflexivity. Qed.

End RealClipping.

(** X7.  Clipping is idempotent: for a positive clip norm, the clipped
    record has global norm [min norm clip_norm], and clipping it again
    with the same clip norm returns it unchanged. *)
Theorem clipping_is_idempotent :
  forall (c : R) (r : structure (tensor R)) (w : world xreal),
    (0 < c)%R ->
    GaussianSumQuery.clipped (Fin c) (lift r) w =
      Ok ((lift (clip c r), Fin (l2_norm r)), w) /\
    GaussianSumQuery.clipped (Fin c) (lift (clip c r)) w =
      Ok ((lift (clip c r), Fin (Rmin (l2_norm r) c)), w).
Proof.
  intros c r w Hc. split; [now apply clipped_lift |].
  rewrite clipped_lift, l2_norm_clip by assumption.
  rewrite clip_within; [reflexivity |].
  rewrite l2_norm_clip by assumption. apply Rmin_r.
Qed.

(** X7 at the record [[3; 4]] and clip norm 1. *)
Lemma clipping_is_idempotent_witness :
  GaussianSumQuery.clipped (Fin 1) (lift (clip 1 (Leaf (vector [3; 4]%R))))
    quiet_world =
    Ok ((lift (clip 1 (Leaf (vector [3; 4]%R))),
         Fin (Rmin (l2_norm (Leaf (vector [3; 4]%R))) 1)), quiet_world).
Proof.
  apply (clipping_is_idempotent (Leaf (vector [3; 4]%R)) quiet_world). lra.
Defined.

(** ** Accumulation on real sample states *)

Section RealAccumulation.
Open Scope R_scope.

Lemma tadd_Fin (x y : tensor R) :
  tadd (tmap Fin x) (tmap Fin y) = tmap Fin (radd x y).
Proof.
  unfold tadd, tmap, radd. cbn [shape data]. f_equal.
  generalize (data y). induction (data x) as [| a xs IH]; intros [| b ys];
    cbn; try reflexivity.
  now rewrite IH.
Qed.

Lemma zip_with_tadd_Fin (xs ys : list (tensor R)) :
  zip_with tadd (map (tmap Fin) xs) (map (tmap Fin) ys) =
  map (tmap Fin) (zip_with radd xs ys).
Proof.
  revert ys. induction xs as [| x xs IH]; intros [| y ys]; cbn;
    try reflexivity.
  now rewrite tadd_Fin, IH.
Qed.

Lemma map_shape_zip_radd (xs ys : list (tensor R)) :
  map (@shape R) xs = map (@shape R) ys ->
  map (@shape R) (zip_with radd xs ys) = map (@shape R) xs.
Proof.
  revert ys. induction xs as [| x xs IH]; intros [| y ys] Hm;
    try discriminate; [reflexivity |].
  cbn in *. injection Hm as _ Hm. now rewrite (IH ys Hm).
Qed.

Lemma same_shapes_lift (r : structure (tensor R)) : same_shapes (lift r) r.
Proof. apply same_shapes_smap. reflexivity. Qed.

(** Accumulating a real record into a real sample state of its shapes:
    the leaves of the clipped record are added to those of the state. *)
Lemma accumulate_record_real (q : GaussianSumQuery.t) (c : R)
  (s r : structure (tensor R)) (w : world xreal) :
  0 < c ->
  same_shapes r s ->
  exists s',
    GaussianSumQuery.accumulate_record q (Fin c) (lift s) (lift r) w =
      Ok (lift s', w) /\
    nest.flatten s' = zip_with radd (nest.flatten s) (nest.flatten (clip c r)) /\
    same_shapes s' s.
Proof.
  intros Hc Hrs.
  assert (Hlift : same_shapes (lift r) (lift s)).
  { apply (same_shapes_trans (same_shapes_lift r)).
    exact (same_shapes_trans Hrs (same_shapes_sym (same_shapes_lift s))). }
  destruct (accumulate_record_ok q (Fin c) w Hlift) as (p & Hacc & Hfp & Hp).
  rewrite clip_scale_real, <- flatten_smap, mul_scalar_lift in Hfp
    by assumption.
  fold (clip c r) in Hfp. unfold lift in Hfp at 1 2.
  rewrite !flatten_smap, zip_with_tadd_Fin in Hfp.
  assert (Hshapes : map (@shape R) (nest.flatten s) =
                    map (@shape R) (nest.flatten (clip c r))).
  { destruct (same_shapes_trans (clip_shapes c r) Hrs) as [_ Hm]. now symmetry. }
  destruct (packed_nest_ok s
              (zip_with radd (nest.flatten s) (nest.flatten (clip c r))) [])
    as (s' & _ & Hfs' & Hss').
  { apply zip_with_length.
    apply (f_equal (@length _)) in Hshapes. now rewrite !length_map in Hshapes. }
  assert (Hs's : same_shapes s' s).
  { split; [now apply same_structure_sym |].
    rewrite Hfs'. now apply map_shape_zip_radd. }
  exists s'. split; [| now split].
  rewrite Hacc. do 2 f_equal. apply structure_eq.
  - destruct Hp as [Hp _].
    apply (same_structure_trans p (lift s) (lift s') Hp).
    destruct (same_shapes_lift s) as [H1 _].
    apply (same_structure_trans (lift s) s (lift s') H1).
    apply (same_structure_trans s s' (lift s') Hss').
    apply same_structure_smap.
  - rewrite Hfp. unfold lift. now rewrite flatten_smap, Hfs'.
Qed.

Lemma wf_lengths {A} (xs : list (tensor A)) :
  Forall wf_tensor xs ->
  map (fun t => length (data t)) xs = map numel (map (@shape A) xs).
Proof.
  intros Hwf. induction Hwf as [| x xs Hx _ IH]; [reflexivity |].
  cbn. now rewrite Hx, IH.
Qed.

Lemma flat_map_zip_radd (xs ys : list (tensor R)) :
  map (fun t => length (data t)) xs = map (fun t => length (data t)) ys ->
  flat_map (@data R) (zip_with radd xs ys) =
    zip_with Rplus (flat_map (@data R) xs) (flat_map (@data R) ys) /\
  length (flat_map (@data R) xs) = length (flat_map (@data R) ys).
Proof.
  revert ys. induction xs as [| x xs IH]; intros [| y ys] Hlen;
    try discriminate; [now split |].
  cbn in Hlen. injection Hlen as Hxy Hlen.
  destruct (IH ys Hlen) as [Hzip Hl].
  cbn [zip_with flat_map radd data]. split.
  - now rewrite zip_with_app, Hzip.
  - now rewrite !length_app, Hxy, Hl.
Qed.

Lemma zip_with_minus_plus (a b : list R) :
  length a = length b -> zip_with Rminus (zip_with Rplus a b) a = b.
Proof.
  revert b. induction a as [| x a IH]; intros [| y b] Hlen;
    try discriminate; [reflexivity |].
  cbn in *. injection Hlen as Hlen. rewrite (IH b Hlen). f_equal. lra.
Qed.

Lemma zip_with_plus_zeros (n : nat) (b : list R) :
  length b = n -> zip_with Rplus (repeat 0 n) b = b.
Proof.
  revert n. induction b as [| y b IH]; intros [| n] Hlen;
    try discriminate; [reflexivity |].
  cbn in *. injection Hlen as Hlen. rewrite (IH n Hlen). f_equal. lra.
Qed.

End RealAccumulation.

(** ** Sensitivity *)

(** X6.  One record moves the sample state by at most the clip norm.
    For a positive clip norm, a real sample state and a real record of
    its shapes (leaves holding as many elements as their shapes say),
    [accumulate_record] returns a state of the same shapes whose elements
    are those of the old state plus those of the clipped record; the
    clipped record has global norm [min norm clip_norm], so the L2
    distance between the new and the old state is at most the clip
    norm. *)
Theorem accumulate_record_moves_the_state_by_at_most_the_clip_norm :
  forall (q : GaussianSumQuery.t) (c : R) (s r : structure (tensor R))
         (w : world xreal),
    (0 < c)%R ->
    same_shapes r s ->
    Forall wf_tensor (nest.flatten s) ->
    Forall wf_tensor (nest.flatten r) ->
    exists s',
      GaussianSumQuery.accumulate_record q (Fin c) (lift s) (lift r) w =
        Ok (lift s', w) /\
      same_shapes s' s /\
      elements s' = zip_with Rplus (elements s) (elements (clip c r)) /\
      l2_norm (clip c r) = Rmin (l2_norm r) c /\
      distance s' s = Rmin (l2_norm r) c /\
      (distance s' s <= c)%R.
Proof.
  intros q c s r w Hc Hrs Hwfs Hwfr.
  destruct (accumulate_record_real q w Hc Hrs) as (s' & Hacc & Hfs' & Hs').
  assert (Hlens : map (fun t => length (data t)) (nest.flatten s) =
                  map (fun t => length (data t)) (nest.flatten (clip c r))).
  { rewrite (wf_lengths Hwfs).
    destruct Hrs as [_ Hm]. rewrite <- Hm, <- (wf_lengths Hwfr).
    unfold clip, rescale. rewrite flatten_smap, map_map.
    apply map_ext. intros t. cbn. now rewrite length_map. }
  destruct (flat_map_zip_radd _ _ Hlens) as [Hzip Hlen].
  assert (Hel : elements s' =
                zip_with Rplus (elements s) (elements (clip c r))).
  { unfold elements. now rewrite Hfs'. }
  assert (Hdist : distance s' s = Rmin (l2_norm r) c).
  { unfold distance. rewrite Hel, zip_with_minus_plus by exact Hlen.
    fold (l2_norm (clip c r)). now apply l2_norm_clip. }
  exists s'.
  split; [exact Hacc |]. split; [exact Hs' |]. split; [exact Hel |].
  split; [now apply l2_norm_clip |].
  split; [exact Hdist | rewrite Hdist; apply Rmin_r].
Qed.

(** X6 at the sample state [[10; 20]], the record [[3; 4]] of norm 5 and
    clip norm 1. *)
Lemma accumulate_record_moves_the_state_by_at_most_the_clip_norm_witness :
  exists s',
    GaussianSumQuery.accumulate_record
      (GaussianSumQuery.mk (Fin 1) (Fin 0) None) (Fin 1)
      (lift (Leaf (vector [10; 20]%R))) (lift (Leaf (vector [3; 4]%R)))
      quiet_world = Ok (lift s', quiet_world) /\
    (distance s' (Leaf (vector [10; 20]%R)) <= 1)%R.
Proof.
  destruct (accumulate_record_moves_the_state_by_at_most_the_clip_norm
              (GaussianSumQuery.mk (Fin 1) (Fin 0) None) (c := 1%R)
              (s := Leaf (vector [10; 20]%R)) (r := Leaf (vector [3; 4]%R))
              quiet_world)
    as (s' & Hacc & _ & _ & _ & _ & Hle).
  - lra.
  - split; reflexivity.
  - repeat constructor.
  - repeat constructor.
  - exists s'. split; assumption.
Defined.

(** X8.  The first record accumulated into the initial sample state
    gives the clipped record itself: for a positive clip norm and a real
    record with the nesting and the shapes of the template (its leaves
    holding as many elements as their shapes say), the state after
    [initial_sample_state] and one [accumulate_record] is the record
    where its global norm is within the clip norm, and the record times
    [clip_norm / norm] where it is beyond. *)
Theorem first_record_gives_the_clipped_record :
  forall (G : Type) (q : GaussianSumQuery.t) (global_state : option G)
         (c : R) (tensors : structure (tensor xreal))
         (r : structure (tensor R)) (w : world xreal),
    (0 < c)%R ->
    same_shapes r tensors ->
    Forall wf_tensor (nest.flatten r) ->
    exists w0,
      (s0 <- GaussianSumQuery.initial_sample_state q global_state tensors ;;
       GaussianSumQuery.accumulate_record q (Fin c) s0 (lift r)) w =
        Ok (lift (clip c r), w0) /\
      ((l2_norm r <= c)%R -> clip c r = r) /\
      ((c < l2_norm r)%R -> clip c r = rescale (c / l2_norm r) r).
Proof.
  intros G q global_state c tensors r w Hc Hrt Hwf.
  unfold bind. rewrite initial_sample_state_eq.
  match goal with
  | |- exists w0, GaussianSumQuery.accumulate_record _ _ _ _ ?w1 = _ /\ _ =>
      exists w1; generalize w1; intros w0
  end.
  set (z := smap (fun t : tensor R =>
                    {| shape := shape t;
                       data := repeat 0%R (numel (shape t)) |}) r).
  assert (Hz : smap tf.zeros_like tensors = lift z).
  { unfold lift, z. rewrite smap_smap. symmetry.
    apply (smap_same_shapes _ _ Hrt). intros t1 t2 Ht.
    unfold tf.zeros_like, tf.zeros, tmap. cbn [shape data].
    rewrite Ht. f_equal. now rewrite map_repeat. }
  assert (Hzr : same_shapes r z).
  { apply same_shapes_sym, same_shapes_smap. reflexivity. }
  destruct (accumulate_record_real q w0 Hc Hzr) as (s' & Hacc & Hfs' & Hs').
  split; [| split].
  - rewrite Hz, Hacc. do 3 f_equal. apply structure_eq.
    + destruct Hs' as [H1 _], Hzr as [H2 _], (clip_shapes c r) as [H3 _].
      apply (same_structure_trans s' z (clip c r) H1).
      apply same_structure_sym in H2, H3.
      exact (same_structure_trans z r (clip c r) H2 H3).
    + rewrite Hfs'. unfold z, clip, rescale. rewrite !flatten_smap.
      clear - Hwf. induction Hwf as [| t ts Ht _ IH]; [reflexivity |].
      cbn [map zip_with]. rewrite IH. f_equal.
      unfold radd, tmap. cbn [shape data]. f_equal.
      apply zip_with_plus_zeros. now rewrite length_map.
  - now apply clip_within.
  - intros Hn. unfold clip, clip_factor.
    destruct (Rle_dec (l2_norm r) c); [lra | reflexivity].
Qed.

(** X8 at the template [[1; 1]] and the record [[0; 0]], of norm 0,
    with clip norm 5: the state is the record. *)
Lemma first_record_gives_the_clipped_record_witness :
  exists w0,
    (s0 <- GaussianSumQuery.initial_sample_state
             (GaussianSumQuery.mk (Fin 5) (Fin 0) (Some 7%nat)) (@None unit)
             (Leaf (vector [Fin 1; Fin 1])) ;;
     GaussianSumQuery.accumulate_record
       (GaussianSumQuery.mk (Fin 5) (Fin 0) (Some 7%nat)) (Fin 5) s0
       (lift (Leaf (vector [0; 0]%R)))) quiet_world =
      Ok (lift (clip 5 (Leaf (vector [0; 0]%R))), w0).
Proof.
  destruct (@first_record_gives_the_clipped_record unit
              (GaussianSumQuery.mk (Fin 5) (Fin 0) (Some 7%nat)) None 5%R
              (Leaf (vector [Fin 1; Fin 1])) (Leaf (vector [0; 0]%R))
              quiet_world) as (w0 & Hacc & _).
  - lra.
  - split; reflexivity.
  - repeat constructor.
  - exists w0. exact Hacc.
Defined.

(** ** Any order of accumulation *)

Lemma fold_left_permutation {A B} (g : A -> B -> A) :
  (forall x a b, g (g x a) b = g (g x b) a) ->
  forall l l' : list B,
    Permutation l l' ->
    forall init : A, fold_left g l init = fold_left g l' init.
Proof.
  intros Hg l l' Hperm.
  induction Hperm as [| x l l' _ IH | x y l | l l' l'' _ IH1 _ IH2];
    intros init; cbn.
  - reflexivity.
  - apply IH.
  - now rewrite Hg.
  - now rewrite IH1, IH2.
Qed.

(** The leaves after a list of records: those of the start, with the
    clipped leaves of each record added in turn. *)
Lemma foldM_accumulate_flatten {T} `{Numeric T} (q : GaussianSumQuery.t)
  (params : T) (records : list (structure (tensor T))) :
  forall (s0 : structure (tensor T)) (w : world T),
    Forall (fun r => same_shapes r s0) records ->
    exists s,
      foldM (GaussianSumQuery.accumulate_record q params) s0 records w =
        Ok (s, w) /\
      same_shapes s s0 /\
      nest.flatten s =
        fold_left (zip_with tadd)
          (map (fun r =>
                  map (fun v => tf.mul_scalar v
                                  (tf.clip_scale
                                     (tf.global_norm (nest.flatten r)) params))
                    (nest.flatten r)) records)
          (nest.flatten s0).
Proof.
  induction records as [| r records IH]; intros s0 w Hall; cbn [foldM].
  - exists s0. split; [reflexivity | split; [apply same_shapes_refl |]].
    reflexivity.
  - inversion Hall as [| r' records' Hr Hrest]; subst.
    destruct (accumulate_record_ok q params w Hr) as (s1 & Hacc & Hf1 & Hs1).
    destruct (IH s1 w) as (s & Hfold & Hs & Hf).
    { eapply Forall_impl; [| exact Hrest]. cbn. intros a Ha.
      exact (same_shapes_trans Ha (same_shapes_sym Hs1)). }
    exists s. unfold bind. rewrite Hacc.
    split; [exact Hfold |].
    split; [exact (same_shapes_trans Hs Hs1) |].
    cbn [map fold_left]. now rewrite <- Hf1.
Qed.

(** X9.  In exact arithmetic the sample state after accumulating a list
    of records does not depend on their order: for records of the sample
    state's nesting and shapes, whatever their elements and the clip norm
    are, accumulating any permutation of the list succeeds and gives the
    same state.  In binary32 the order can matter: from 0, the records
    2^24, 1, 1 give 2^24 and the records 1, 1, 2^24 give 2^24 + 2 (the
    clip norm 2^25 clips none of them). *)
Theorem accumulation_is_permutation_invariant :
  (forall (q : GaussianSumQuery.t) (params : xreal)
          (s0 : structure (tensor xreal))
          (records records' : list (structure (tensor xreal)))
          (w : world xreal),
      Permutation records records' ->
      Forall (fun r => same_shapes r s0) records ->
      exists s,
        foldM (GaussianSumQuery.accumulate_record q params) s0 records w =
          Ok (s, w) /\
        foldM (GaussianSumQuery.accumulate_record q params) s0 records' w =
          Ok (s, w)) /\
  (let q := GaussianSumQuery.mk (of_Z 33554432 : binary32) (of_Z 0) None in
   let big := Leaf (scalar (of_Z 16777216)) in
   let one := Leaf (scalar (of_Z 1)) in
   returned
     (foldM (GaussianSumQuery.accumulate_record q (of_Z 33554432))
        (Leaf (scalar (of_Z 0))) [big; one; one] quiet_world32) =
     Ok (Leaf (scalar (of_Z 16777216))) /\
   returned
     (foldM (GaussianSumQuery.accumulate_record q (of_Z 33554432))
        (Leaf (scalar (of_Z 0))) [one; one; big] quiet_world32) =
     Ok (Leaf (scalar (of_Z 16777218)))).
Proof.
  split; [| split; vm_compute; reflexivity].
  intros q params s0 records records' w Hperm Hall.
  assert (Hall' : Forall (fun r => same_shapes r s0) records').
  { rewrite Forall_forall in *. intros r Hr. apply Hall.
    apply (Permutation_in r (Permutation_sym Hperm) Hr). }
  destruct (foldM_accumulate_flatten q params w Hall) as (s & Hfold & Hs & Hf).
  destruct (foldM_accumulate_flatten q params w Hall')
    as (s' & Hfold' & Hs' & Hf').
  exists s. split; [exact Hfold |]. rewrite Hfold'. do 2 f_equal.
  apply structure_eq.
  - destruct Hs as [H1 _], Hs' as [H2 _].
    apply same_structure_sym in H1.
    exact (same_structure_trans s' s0 s H2 H1).
  - rewrite Hf, Hf'. symmetry.
    apply fold_left_permutation.
    + intros x a b. apply zip_with_swap, tadd_swap.
    + now apply Permutation_map.
Qed.

(** X9 at three records and their reversal. *)
Lemma accumulation_is_permutation_invariant_witness :
  let q := GaussianSumQuery.mk (Fin 1) (Fin 0) None in
  let a := Leaf (vector [Fin 3; Fin 4]) in
  let b := Leaf (vector [Fin 0; Fin 12]) in
  let c := Leaf (vector [PInf; Fin 1]) in
  exists s,
    foldM (GaussianSumQuery.accumulate_record q (Fin 1))
      (Leaf (vector [Fin 0; Fin 0])) [a; b; c] quiet_world =
      Ok (s, quiet_world) /\
    foldM (GaussianSumQuery.accumulate_record q (Fin 1))
      (Leaf (vector [Fin 0; Fin 0])) [c; b; a] quiet_world =
      Ok (s, quiet_world).
Proof.
  intros q a b c.
  apply (proj1 accumulation_is_permutation_invariant).
  - change [c; b; a] with (rev [a; b; c]). apply Permutation_rev.
  - repeat constructor.
Defined.

(** ** Division by a zero denominator *)

Lemma xdiv_zero_special (x : xreal) : is_special (xdiv x (Fin 0)).
Proof.
  unfold is_special. destruct x as [a | | |]; cbn.
  - destruct (Req_dec_T 0 0) as [_ | Hne]; [| now contradiction Hne].
    destruct (Req_dec_T a 0); [now right; right |].
    destruct (Rlt_dec 0 a); [now left | now right; left].
  - destruct (Rlt_dec 0 0) as [Hlt | _]; [lra | now left].
  - destruct (Rlt_dec 0 0) as [Hlt | _]; [lra | now right; left].
  - now right; right.
Qed.

Lemma all_data_smap_tmap {A B} (f : A -> B) (s : structure (tensor A)) :
  all_data (smap (tmap f) s) = map f (all_data s).
Proof.
  unfold all_data. rewrite flatten_smap.
  induction (nest.flatten s) as [| t ts IH]; [reflexivity |].
  cbn [map flat_map tmap data]. now rewrite map_app, IH.
Qed.

(** X10.  An average query whose denominator is 0 raises nothing:
    [get_noised_result] returns an estimate of the sample state's shapes
    in which every element is an infinity or NaN, whatever the sample
    state and the standard deviation are.  In binary32, with standard
    deviation 0, the sample state [6; 0; -9] gives [+inf; NaN; -inf]. *)
Theorem average_with_zero_denominator_returns_no_finite_number :
  (forall (G : Type) (numerator : GaussianSumQuery.t)
          (sample_state : structure (tensor xreal)) (global_state : option G)
          (w : world xreal),
      exists estimate w',
        GaussianAverageQuery.get_noised_result
          (GaussianAverageQuery.mk numerator (Fin 0)) sample_state
          global_state w = Ok ((estimate, global_state), w') /\
        same_shapes estimate sample_state /\
        Forall is_special (all_data estimate)) /\
  returned
    (GaussianAverageQuery.get_noised_result
       (GaussianAverageQuery.mk
          (GaussianSumQuery.mk (of_Z 1 : binary32) (of_Z 0) None) (of_Z 0))
       (Leaf (vector [of_Z 6; of_Z 0; of_Z (-9)])) (@None unit)
       quiet_world32) =
    Ok (Leaf (vector [S754_infinity false; S754_nan; S754_infinity true]),
        None).
Proof.
  split; [| vm_compute; reflexivity].
  intros G numerator sample_state global_state w.
  destruct (get_noised_result_ok numerator sample_state global_state w)
    as (noised & w' & Hsum & _).
  pose proof Hsum as Hshapes. apply get_noised_result_shapes in Hshapes.
  eexists. exists w'. split; [| split].
  - apply average_get_noised_result_eq. exact Hsum.
  - apply (same_shapes_trans (s2 := noised)); [| exact Hshapes].
    apply same_shapes_smap. reflexivity.
  - cbn [GaussianAverageQuery._denominator]. unfold tf.truediv.
    rewrite all_data_smap_tmap. apply Forall_map, Forall_forall.
    intros x _. apply xdiv_zero_special.
Qed.

(** ** A negative clip norm *)

Lemma clip_scale_negative (n c : R) :
  (c < 0)%R -> (0 <= n)%R -> tf.clip_scale (Fin n) (Fin c) = Fin 1.
Proof.
  intros Hc Hn. unfold tf.clip_scale.
  cbn [nmul nmin ndiv of_Z xreal_Numeric xdiv].
  destruct (Req_dec_T c 0); [lra |].
  assert (Hone : Fin (c * (1 / c)) = Fin 1) by (f_equal; field; lra).
  assert (Hinv : (/ c < 0)%R) by (apply Rinv_lt_0_compat; lra).
  destruct (Req_dec_T n 0) as [-> | Hn0].
  - destruct (Req_dec_T 1 0); [lra |]. destruct (Rlt_dec 0 1); [| lra].
    cbn. exact Hone.
  - unfold xmin, xlt.
    destruct (Rlt_dec (1 / n) (1 / c)) as [Hlt | _]; [| exact Hone].
    exfalso. unfold Rdiv in Hlt. rewrite !Rmult_1_l in Hlt.
    assert (0 < / n)%R by (apply Rinv_0_lt_compat; lra). lra.
Qed.

(** X11.  A negative clip norm clips nothing: for every real record,
    whatever its global norm, the clipped record is the record itself and
    [accumulate_record] adds it unscaled to the sample state, the scale
    [c * min (1/norm) (1/c)] being [c * (1/c)].  In binary32, with clip
    norm -1, the record [[3; 4]] added to [[0; 0]] gives [[3; 4]]. *)
Theorem negative_clip_norm_clips_nothing :
  (forall (q : GaussianSumQuery.t) (c : R)
          (sample_state : structure (tensor xreal))
          (r : structure (tensor R)) (w : world xreal),
      (c < 0)%R ->
      GaussianSumQuery.clipped (Fin c) (lift r) w =
        Ok ((lift r, Fin (l2_norm r)), w) /\
      GaussianSumQuery.accumulate_record q (Fin c) sample_state (lift r) w =
        nest.map_structure2 tf.add sample_state (lift r) w) /\
  returned
    (GaussianSumQuery.accumulate_record
       (GaussianSumQuery.mk (of_Z (-1) : binary32) (of_Z 0) None) (of_Z (-1))
       (Leaf (vector [of_Z 0; of_Z 0])) (Leaf (vector [of_Z 3; of_Z 4]))
       quiet_world32) =
    Ok (Leaf (vector [of_Z 3; of_Z 4])).
Proof.
  split; [| vm_compute; reflexivity].
  intros q c sample_state r w Hc.
  assert (Hscale : tf.clip_scale (tf.global_norm (nest.flatten (lift r)))
                     (Fin c) = Fin 1).
  { rewrite global_norm_lift.
    apply clip_scale_negative; [assumption | apply l2_norm_nonneg]. }
  assert (Hsame : smap (fun v => tf.mul_scalar v (Fin 1)) (lift r) = lift r).
  { now rewrite mul_scalar_lift, rescale_one. }
  split.
  - rewrite clipped_eq, Hscale, Hsame, global_norm_lift. reflexivity.
  - rewrite accumulate_record_eq, Hscale, Hsame. reflexivity.
Qed.

(** X11 at the record [[3; 4]] and clip norm -1. *)
Lemma negative_clip_norm_clips_nothing_witness :
  GaussianSumQuery.clipped (Fin (-1)) (lift (Leaf (vector [3; 4]%R)))
    quiet_world =
    Ok ((lift (Leaf (vector [3; 4]%R)),
         Fin (l2_norm (Leaf (vector [3; 4]%R)))), quiet_world).
Proof.
  apply (proj1 negative_clip_norm_clips_nothing
           (GaussianSumQuery.mk (Fin (-1)) (Fin 0) None) (-1)%R
           (Leaf (vector [Fin 0; Fin 0])) (Leaf (vector [3; 4]%R))
           quiet_world).
  lra.
Defined.

(** ** What an average query records *)

